(** * Zodiac calculator server: a shallow embedding of [server/index.js]

    The definitions follow the source file top to bottom:

    - [Js]: the few JavaScript primitives the server relies on (truthiness
      of request values, [String.prototype.trim], the [Date] object with
      its UTC parsing and its local-time getters);
    - [Calendar]: dates of the Gregorian calendar and their order;
    - [Validator]: the two functions of the [validator] package the server
      calls, [escape] and [isDate];
    - [Zodiac]: [calculateZodiacSign] and its table of ranges;
    - [Validation]: [validateInput], and [Rules], the rules of the
      specification one by one;
    - [Store]: [readData], [writeData] and the data file;
    - [Api]: the handlers of [GET /api/entries] and [POST /api/calculate].

    The properties come after the definitions, one module of facts for each
    part.

    Integers are [Z]; instants are milliseconds since the epoch, as in
    JavaScript; strings are [string], one [ascii] per code unit, so that
    only the code units below 256 are represented. *)

From Stdlib Require Import ZArith List Bool Lia Ascii String.
From Stdlib Require Import Numbers.DecimalString.
From Stdlib Require Numbers.DecimalZ.
Import ListNotations.

Open Scope string_scope.
Open Scope Z_scope.

(** ** JavaScript primitives *)

Module Js.

(** A value of the request body, as [express.json] hands it over. Numbers
    are the integers, which is all the truthiness test needs. *)
Inductive JsVal :=
| JsUndefined
| JsNull
| JsBool (b : bool)
| JsNumber (n : Z)
| JsString (s : string)
| JsObject.

(** [ToBoolean]. *)
Definition truthy (v : JsVal) : bool :=
  match v with
  | JsUndefined | JsNull => false
  | JsBool b => b
  | JsNumber n => negb (n =? 0)
  | JsString s => negb (String.eqb s "")
  | JsObject => true
  end.

(** [typeof v === 'string']. *)
Definition isString (v : JsVal) : bool :=
  match v with JsString _ => true | _ => false end.

(** The outcome of a piece of code that may [throw]. *)
Inductive Completion (A : Type) :=
| Normal (a : A)
| Throw (message : string).
Arguments Normal {A} a.
Arguments Throw {A} message.

Definition bind {A B} (c : Completion A) (k : A -> Completion B) : Completion B :=
  match c with
  | Normal a => k a
  | Throw m => Throw m
  end.

(** [v.trim()] on a request value: a method call on [undefined], [null] or
    a value without that method throws a [TypeError]. *)
Definition typeError : string := "TypeError".

(** White space and line terminators below U+0100, the ones [trim] strips
    and [\s] matches. *)
Definition isWhiteSpace (c : ascii) : bool :=
  let n := N_of_ascii c in
  ((9 <=? n) && (n <=? 13))%N || (n =? 32)%N || (n =? 160)%N.

Fixpoint trimStart (s : string) : string :=
  match s with
  | EmptyString => EmptyString
  | String c rest => if isWhiteSpace c then trimStart rest else s
  end.

(** Dropping trailing white space: a character is kept when something is
    kept after it or when it is not white space itself. *)
Fixpoint trimEnd (s : string) : string :=
  match s with
  | EmptyString => EmptyString
  | String c rest =>
      match trimEnd rest with
      | EmptyString => if isWhiteSpace c then EmptyString else String c EmptyString
      | kept => String c kept
      end
  end.

Definition trim (s : string) : string := trimEnd (trimStart s).

Definition trimMethod (v : JsVal) : Completion string :=
  match v with
  | JsString s => Normal (trim s)
  | _ => Throw typeError
  end.

(** [s.length]. *)
Definition strlen (s : string) : Z := Z.of_nat (String.length s).

(** *** Dates

    A [Date] holds a time value, in milliseconds since the epoch in UTC, or
    [NaN] for an invalid date: [option Z]. The day and calendar arithmetic
    is that of the proleptic Gregorian calendar. *)

Definition msPerMinute : Z := 60000.
Definition msPerDay : Z := 86400000.

(** Day number (days since 1970-01-01) of a calendar date; [month] is
    1-based and is expected in 1..12, [day] may run over the month's end,
    as in the language's [MakeDay]. *)
Definition daysFromCivil (year month day : Z) : Z :=
  let y := if month <=? 2 then year - 1 else year in
  let era := y / 400 in
  let yoe := y - era * 400 in
  let mp := if month >? 2 then month - 3 else month + 9 in
  let doy := (153 * mp + 2) / 5 + day - 1 in
  let doe := yoe * 365 + yoe / 4 - yoe / 100 + doy in
  era * 146097 + doe - 719468.

(** Calendar date [(year, month, day)] of a day number, [month] 1-based. *)
Definition civilFromDays (days : Z) : Z * Z * Z :=
  let z := days + 719468 in
  let era := z / 146097 in
  let doe := z - era * 146097 in
  let yoe := (doe - doe / 1460 + doe / 36524 - doe / 146096) / 365 in
  let doy := doe - (365 * yoe + yoe / 4 - yoe / 100) in
  let mp := (5 * doy + 2) / 153 in
  let d := doy - (153 * mp + 2) / 5 + 1 in
  let m := if mp <? 10 then mp + 3 else mp - 9 in
  let y := yoe + era * 400 in
  ((if m <=? 2 then y + 1 else y), m, d).

(** [MakeDay], with a month index 0..11 plus overflow into later years. *)
Definition makeDay (year monthIndex day : Z) : Z :=
  daysFromCivil (year + monthIndex / 12) (monthIndex mod 12 + 1) 1 + day - 1.

Definition yearFromTime (t : Z) : Z := fst (fst (civilFromDays (t / msPerDay))).
Definition monthFromTime (t : Z) : Z := snd (fst (civilFromDays (t / msPerDay))) - 1.
Definition dateFromTime (t : Z) : Z := snd (civilFromDays (t / msPerDay)).

(** What the host contributes to a request: the zone of the process, the
    date parser behind [new Date(string)] and the [validator.isDate] of the
    installed package. [tzOffset] is the local zone's offset in minutes,
    positive east of Greenwich, so that local time is UTC plus the offset. *)
Record Env := mkEnv {
  tzOffset : Z;
  parseDate : string -> option Z;
  isDate : string -> bool
}.

Definition localTime (env : Env) (t : Z) : Z := t + tzOffset env * msPerMinute.
Definition utcOfLocal (env : Env) (t : Z) : Z := t - tzOffset env * msPerMinute.

(** The local-time getters; each returns [NaN] on an invalid date. *)
Definition getFullYear (env : Env) (d : option Z) : option Z :=
  option_map (fun t => yearFromTime (localTime env t)) d.
Definition getMonth (env : Env) (d : option Z) : option Z :=
  option_map (fun t => monthFromTime (localTime env t)) d.
Definition getDate (env : Env) (d : option Z) : option Z :=
  option_map (fun t => dateFromTime (localTime env t)) d.

(** [new Date(year, monthIndex, day)]: local midnight of that date. A year
    in 0..99 stands for 1900 + year. *)
Definition newDateYMD (env : Env) (year monthIndex day : Z) : Z :=
  let y := if (0 <=? year) && (year <=? 99) then 1900 + year else year in
  utcOfLocal env (makeDay y monthIndex day * msPerDay).

(** [a > b] and [a < b] on two dates: a comparison with [NaN] is false. *)
Definition dateGt (a b : option Z) : bool :=
  match a, b with Some x, Some y => x >? y | _, _ => false end.
Definition dateLt (a b : option Z) : bool :=
  match a, b with Some x, Some y => x <? y | _, _ => false end.

(** *** Reading and printing decimal numbers *)

Definition digitValue (c : ascii) : option Z :=
  let n := N_of_ascii c in
  if ((48 <=? n) && (n <=? 57))%N then Some (Z.of_N n - 48) else None.

Fixpoint digitsValue (acc : Z) (s : string) : option Z :=
  match s with
  | EmptyString => Some acc
  | String c rest =>
      match digitValue c with
      | Some d => digitsValue (10 * acc + d) rest
      | None => None
      end
  end.

(** A non-empty run of decimal digits. *)
Definition parseDigits (s : string) : option Z :=
  match s with
  | EmptyString => None
  | _ => digitsValue 0 s
  end.

(** [n.toString()] on an integer. *)
Definition numberToString (n : Z) : string :=
  NilEmpty.string_of_int (Z.to_int n).

Fixpoint zeros (n : nat) : string :=
  match n with
  | O => EmptyString
  | S k => String "0" (zeros k)
  end.

(** [String(n).padStart(width, '0')] for [n >= 0]. *)
Definition pad (width : nat) (n : Z) : string :=
  let s := numberToString n in
  (zeros (width - String.length s) ++ s)%string.

(** The year, month and day written in a string of the ISO date-only form
    [YYYY-MM-DD]. *)
Definition isoFields (s : string) : option (Z * Z * Z) :=
  if (String.length s =? 10)%nat
     && String.eqb (substring 4 1 s) "-" && String.eqb (substring 7 1 s) "-"
  then
    match parseDigits (substring 0 4 s),
          parseDigits (substring 5 2 s),
          parseDigits (substring 8 2 s) with
    | Some y, Some m, Some d => Some (y, m, d)
    | _, _, _ => None
    end
  else None.

(** [new Date(string)] on the date-only form, which it reads as midnight
    UTC. As V8 does, the month must be in 1..12 and the day in 1..31, a
    day past the end of the month running into the next one. Any other
    string is an invalid date here. *)
Definition parseIsoDate (s : string) : option Z :=
  match isoFields s with
  | Some (y, m, d) =>
      if (1 <=? m) && (m <=? 12) && (1 <=? d) && (d <=? 31)
      then Some (makeDay y (m - 1) d * msPerDay)
      else None
  | None => None
  end.

(** [date.toISOString()] for a year in 0..9999. *)
Definition toISOString (t : Z) : string :=
  let '(y, m, d) := civilFromDays (t / msPerDay) in
  let ms := t mod msPerDay in
  (pad 4 y ++ "-" ++ pad 2 m ++ "-" ++ pad 2 d ++ "T"
   ++ pad 2 (ms / 3600000) ++ ":" ++ pad 2 (ms / 60000 mod 60) ++ ":"
   ++ pad 2 (ms / 1000 mod 60) ++ "." ++ pad 3 (ms mod 1000) ++ "Z")%string.

End Js.

(** ** Calendar dates *)

Module Calendar.

Definition isLeap (y : Z) : bool :=
  (y mod 4 =? 0) && (negb (y mod 100 =? 0) || (y mod 400 =? 0)).

Definition daysInMonthOf (y m : Z) : Z :=
  match m with
  | 1 => 31 | 2 => if isLeap y then 29 else 28 | 3 => 31 | 4 => 30
  | 5 => 31 | 6 => 30 | 7 => 31 | 8 => 31 | 9 => 30 | 10 => 31
  | 11 => 30 | 12 => 31
  | _ => 0
  end.

(** A date [(year, month, day)] of the calendar. *)
Definition validCivil (t : Z * Z * Z) : Prop :=
  1 <= snd (fst t) <= 12
  /\ 1 <= snd t <= daysInMonthOf (fst (fst t)) (snd (fst t)).

(** One calendar date strictly before another. *)
Definition civilLt (a b : Z * Z * Z) : bool :=
  let '(ya, ma, da) := a in
  let '(yb, mb, db) := b in
  (ya <? yb) || ((ya =? yb) && ((ma <? mb) || ((ma =? mb) && (da <? db)))).

(** The month counted from March, as the day arithmetic counts it. *)
Definition marchMonth (m : Z) : Z := if m >? 2 then m - 3 else m + 9.

(** [validCivil] put as arithmetic on the month counted from March. *)
Definition marchBounds (y m d : Z) : Prop :=
  1 <= m <= 12 /\ 1 <= d /\
  (marchMonth m <= 10 ->
     (153 * marchMonth m + 2) / 5 + d <= (153 * (marchMonth m + 1) + 2) / 5) /\
  (marchMonth m = 11 ->
     d <= 29 /\ (d = 29 -> y mod 4 = 0 /\ (y mod 100 <> 0 \/ y mod 400 = 0))).

End Calendar.

(** ** The [validator] package *)

Module Validator.
Import Js.

Definition quoteChar : ascii := ascii_of_N 34.
Definition backslashChar : ascii := ascii_of_N 92.

(** [validator.escape]: a chain of global replacements, the ampersand
    first, which comes to one replacement per character. *)
Definition escapeChar (c : ascii) : string :=
  if Ascii.eqb c "&" then "&amp;"
  else if Ascii.eqb c quoteChar then "&quot;"
  else if Ascii.eqb c "'" then "&#x27;"
  else if Ascii.eqb c "<" then "&lt;"
  else if Ascii.eqb c ">" then "&gt;"
  else if Ascii.eqb c "/" then "&#x2F;"
  else if Ascii.eqb c backslashChar then "&#x5C;"
  else if Ascii.eqb c "`" then "&#96;"
  else String c EmptyString.

Fixpoint escape (s : string) : string :=
  match s with
  | EmptyString => EmptyString
  | String c rest => (escapeChar c ++ escape rest)%string
  end.

(** [validator.isDate] on the strings of the form [YYYY-MM-DD]: the
    package rebuilds the date at midnight UTC and accepts the string when
    the day of the month it reads back is the day that was written, which
    rules out February 30 and the like. *)
Definition isIsoCalendarDate (s : string) : bool :=
  match parseIsoDate s, isoFields s with
  | Some t, Some (_, _, d) => dateFromTime t =? d
  | _, _ => false
  end.

(** A Node host in the zone [tz] (minutes east of Greenwich), restricted
    to dates written [YYYY-MM-DD]. *)
Definition isoHost (tz : Z) : Env := mkEnv tz parseIsoDate isIsoCalendarDate.

End Validator.

(** ** The zodiac classifier *)

Module Zodiac.
Import Js.

(** One element of the [zodiacSigns] array: [{ sign, start: [m, d], end: [m, d] }]. *)
Record ZodiacRange := mkRange {
  sign : string;
  startMonth : Z;
  startDay : Z;
  endMonth : Z;
  endDay : Z
}.

Definition zodiacSigns : list ZodiacRange :=
  [ mkRange "Capricorn" 12 22 1 19;
    mkRange "Aquarius" 1 20 2 18;
    mkRange "Pisces" 2 19 3 20;
    mkRange "Aries" 3 21 4 19;
    mkRange "Taurus" 4 20 5 20;
    mkRange "Gemini" 5 21 6 20;
    mkRange "Cancer" 6 21 7 22;
    mkRange "Leo" 7 23 8 22;
    mkRange "Virgo" 8 23 9 22;
    mkRange "Libra" 9 23 10 22;
    mkRange "Scorpio" 10 23 11 21;
    mkRange "Sagittarius" 11 22 12 21 ].

(** The test in the body of the [for] loop: the first branch is the one for
    a range that spans the turn of the year ([startMonth > endMonth]). *)
Definition rangeMatches (z : ZodiacRange) (month day : Z) : bool :=
  if startMonth z >? endMonth z then
    ((month =? startMonth z) && (day >=? startDay z))
    || ((month =? endMonth z) && (day <=? endDay z))
  else
    ((month =? startMonth z) && (day >=? startDay z))
    || ((month =? endMonth z) && (day <=? endDay z))
    || ((month >? startMonth z) && (month <? endMonth z)).

(** The [for ... of] loop: the first range that matches returns its sign,
    and falling out of the loop returns ['Unknown']. *)
Fixpoint firstMatch (signs : list ZodiacRange) (month day : Z) : string :=
  match signs with
  | [] => "Unknown"
  | z :: rest =>
      if rangeMatches z month day then sign z else firstMatch rest month day
  end.

(** The classifier on the [month] and [day] the function has computed
    (lines 52 to 85 of the source). *)
Definition classify (month day : Z) : string :=
  firstMatch zodiacSigns month day.

Definition signLabels : list string := map sign zodiacSigns.

(** Number of days of a month in a leap year, so that February 29 counts. *)
Definition daysInMonth (month : Z) : Z :=
  match month with
  | 1 => 31 | 2 => 29 | 3 => 31 | 4 => 30 | 5 => 31 | 6 => 30
  | 7 => 31 | 8 => 31 | 9 => 30 | 10 => 31 | 11 => 30 | 12 => 31
  | _ => 0
  end.

Definition validDate (month day : Z) : Prop :=
  1 <= month <= 12 /\ 1 <= day <= daysInMonth month.

(** The days [from, from+1, ..., from+n-1]. *)
Fixpoint daysFrom (from : Z) (n : nat) : list Z :=
  match n with
  | O => []
  | S k => from :: daysFrom (from + 1) k
  end.

(** Every calendar date of a leap year, in calendar order. *)
Definition calendar : list (Z * Z) :=
  flat_map (fun m => map (fun d => (m, d)) (daysFrom 1 (Z.to_nat (daysInMonth m))))
           (daysFrom 1 12).

(** The ranges of the table that accept a date. *)
Definition matching (month day : Z) : list ZodiacRange :=
  filter (fun z => rangeMatches z month day) zodiacSigns.

(** The day on which the sign changes within a month. *)
Definition cusp (month : Z) : Z :=
  match month with
  | 1 => 20 | 2 => 19 | 3 => 21 | 4 => 20 | 5 => 21 | 6 => 21
  | 7 => 23 | 8 => 23 | 9 => 23 | 10 => 23 | 11 => 22 | 12 => 22
  | _ => 0
  end.

(** The range of the table that ends in [month], and the one that starts
    in it. *)
Definition endingIn (month : Z) : ZodiacRange :=
  nth (Z.to_nat (month - 1)) zodiacSigns (mkRange "Unknown" 0 0 0 0).
Definition startingIn (month : Z) : ZodiacRange :=
  nth (Z.to_nat (month mod 12)) zodiacSigns (mkRange "Unknown" 0 0 0 0).

Definition rangeOf (month day : Z) : ZodiacRange :=
  if day <? cusp month then endingIn month else startingIn month.

(** How many dates of [calendar] each range accepts. *)
Definition daysPerSign : list nat :=
  map (fun z => List.length (filter (fun md => rangeMatches z (fst md) (snd md)) calendar))
      zodiacSigns.

(** [calculateZodiacSign]: the date string goes through [new Date], the
    month and the day are read back in local time. On an invalid date both
    are [NaN], no comparison of the loop holds and the result is
    ['Unknown']. *)
Definition calculateZodiacSign (env : Env) (dateString : string) : string :=
  let date := parseDate env dateString in
  let month := option_map (fun m => m + 1) (getMonth env date) in
  let day := getDate env date in
  match month, day with
  | Some m, Some d => classify m d
  | _, _ => "Unknown"
  end.

End Zodiac.

(** ** Input validation *)

Module Validation.
Import Js.

Record ValidationResult := mkValidation {
  isValid : bool;
  errors : list string;
  sanitizedName : string;
  sanitizedDate : string
}.

Definition msgNameRequired := "Name is required".
Definition msgNameShort := "Name must be at least 2 characters long".
Definition msgNameLong := "Name must be less than 50 characters".
Definition msgNameChars :=
  "Name can only contain letters, spaces, hyphens, and apostrophes".
Definition msgDateRequired := "Date of birth is required".
Definition msgDateFormat := "Invalid date format".
Definition msgDateFuture := "Date of birth cannot be in the future".
Definition msgDateOld := "Date of birth cannot be more than 120 years ago".

(** The character class [[a-zA-Z\s'-]]. *)
Definition nameChar (c : ascii) : bool :=
  let n := N_of_ascii c in
  ((97 <=? n) && (n <=? 122))%N || ((65 <=? n) && (n <=? 90))%N
  || isWhiteSpace c || Ascii.eqb c "'" || Ascii.eqb c "-".

Fixpoint allChars (p : ascii -> bool) (s : string) : bool :=
  match s with
  | EmptyString => true
  | String c rest => p c && allChars p rest
  end.

(** [/^[a-zA-Z\s'-]+$/.test(s)]. *)
Definition nameRegex (s : string) : bool :=
  negb (String.eqb s "") && allChars nameChar s.

(** The string behind a value known to be one. *)
Definition stringOf (v : JsVal) : string :=
  match v with JsString s => s | _ => "" end.

(** The first [if ... else if] chain: what it pushes on [errors]. *)
Definition nameErrors (name : JsVal) : list string :=
  if negb (truthy name) || negb (isString name) then [msgNameRequired]
  else if strlen (trim (stringOf name)) <? 2 then [msgNameShort]
  else if strlen (trim (stringOf name)) >? 50 then [msgNameLong]
  else if negb (nameRegex (trim (stringOf name))) then [msgNameChars]
  else [].

(** [hundredYearsAgo], that is
    [new Date(today.getFullYear() - 120, today.getMonth(), today.getDate())]. *)
Definition hundredYearsAgo (env : Env) (today : option Z) : option Z :=
  match getFullYear env today, getMonth env today, getDate env today with
  | Some y, Some m, Some d => Some (newDateYMD env (y - 120) m d)
  | _, _, _ => None
  end.

(** The second chain. [now] is the instant [new Date()] returns. *)
Definition dateErrors (env : Env) (now : Z) (dateOfBirth : JsVal) : list string :=
  if negb (truthy dateOfBirth) || negb (isString dateOfBirth) then [msgDateRequired]
  else if negb (isDate env (stringOf dateOfBirth)) then [msgDateFormat]
  else
    let birthDate := parseDate env (stringOf dateOfBirth) in
    let today := Some now in
    if dateGt birthDate today then [msgDateFuture]
    else if dateLt birthDate (hundredYearsAgo env today) then [msgDateOld]
    else [].

(** [v ? f(v.trim()) : ''], the shape of both sanitized fields. *)
Definition sanitize (f : string -> string) (v : JsVal) : Completion string :=
  if truthy v then bind (trimMethod v) (fun t => Normal (f t)) else Normal "".

(** [validateInput]. The object it returns is built after the two chains
    have run, and building it throws when a field is truthy without being
    a string. *)
Definition validateInput (env : Env) (now : Z) (name dateOfBirth : JsVal)
  : Completion ValidationResult :=
  let errors := (nameErrors name ++ dateErrors env now dateOfBirth)%list in
  bind (sanitize Validator.escape name) (fun sanitizedName =>
  bind (sanitize (fun t => t) dateOfBirth) (fun sanitizedDate =>
  Normal (mkValidation (Nat.eqb (List.length errors) 0) errors
                       sanitizedName sanitizedDate))).

End Validation.

(** ** The rules of the validator, one by one

    The rules as the specification lists them, each with the test that
    tells whether an input breaks it, taken by itself. *)

Module Rules.
Import Js Calendar Validation.

Inductive Rule :=
| NameRequired
| NameMinLength
| NameMaxLength
| NameCharacters
| DateRequired
| DateParseable
| DateNotFuture
| DateNotTooOld.

Definition message (r : Rule) : string :=
  match r with
  | NameRequired => msgNameRequired
  | NameMinLength => msgNameShort
  | NameMaxLength => msgNameLong
  | NameCharacters => msgNameChars
  | DateRequired => msgDateRequired
  | DateParseable => msgDateFormat
  | DateNotFuture => msgDateFuture
  | DateNotTooOld => msgDateOld
  end.

Definition violates (env : Env) (now : Z) (name dateOfBirth : JsVal) (r : Rule) : bool :=
  match r with
  | NameRequired => negb (truthy name) || negb (isString name)
  | NameMinLength => isString name && (strlen (trim (stringOf name)) <? 2)
  | NameMaxLength => isString name && (strlen (trim (stringOf name)) >? 50)
  | NameCharacters => isString name && negb (nameRegex (trim (stringOf name)))
  | DateRequired => negb (truthy dateOfBirth) || negb (isString dateOfBirth)
  | DateParseable =>
      isString dateOfBirth && negb (isDate env (stringOf dateOfBirth))
  | DateNotFuture =>
      isString dateOfBirth
      && dateGt (parseDate env (stringOf dateOfBirth)) (Some now)
  | DateNotTooOld =>
      isString dateOfBirth
      && dateLt (parseDate env (stringOf dateOfBirth)) (hundredYearsAgo env (Some now))
  end.

Definition nameRules : list Rule :=
  [NameRequired; NameMinLength; NameMaxLength; NameCharacters].
Definition dateRules : list Rule :=
  [DateRequired; DateParseable; DateNotFuture; DateNotTooOld].

(** Every violation is reported: the reading of the specification. *)
Definition reportsAllViolations (env : Env) (now : Z) (name dateOfBirth : JsVal) : Prop :=
  forall v, validateInput env now name dateOfBirth = Normal v ->
  forall r, violates env now name dateOfBirth r = true -> In (message r) (errors v).

(** The message of the first rule of a list that the input breaks. *)
Definition firstViolation (env : Env) (now : Z) (name dateOfBirth : JsVal)
    (rules : list Rule) : list string :=
  match find (violates env now name dateOfBirth) rules with
  | Some r => [message r]
  | None => []
  end.

(** The calendar date of an instant in the zone of the host. *)
Definition localDate (env : Env) (t : Z) : Z * Z * Z :=
  civilFromDays (localTime env t / msPerDay).

(** The date errors the specification asks for, on calendar dates: a birth
    date after today is in the future, one before the same month and day
    120 years back is too old. *)
Definition windowErrors (today birth : Z * Z * Z) : list string :=
  let '(y, m, d) := today in
  if civilLt today birth then [msgDateFuture]
  else if civilLt birth (y - 120, m, d) then [msgDateOld]
  else [].

End Rules.

(** ** The data file *)

Module Store.
Import Js.

Record Entry := mkEntry {
  id : string;
  name : string;
  dateOfBirth : string;
  zodiacSign : string;
  timestamp : string
}.

(** What [data.json] holds: nothing (no such file), text that
    [JSON.parse] rejects, or the array of entries a previous [writeData]
    or [initializeDataFile] has written. A file edited by hand into JSON
    that is not such an array is left out. *)
Inductive FileContent :=
| Missing
| Garbled
| Document (entries : list Entry).

(** The file together with whether the file system lets the process read
    and write it. *)
Record Disk := mkDisk {
  content : FileContent;
  readable : bool;
  writable : bool
}.

(** [readData]: any failure of [readFile] or [JSON.parse] is caught,
    logged, and answered by the empty array. *)
Definition readData (disk : Disk) : list Entry :=
  if readable disk then
    match content disk with
    | Document entries => entries
    | Missing | Garbled => []
    end
  else [].

(** Whether [readData] went through its [catch]. *)
Definition readFails (disk : Disk) : bool :=
  negb (readable disk) ||
  match content disk with Document _ => false | _ => true end.

(** [writeData]: a failed write is logged and thrown again as
    ['Failed to save data']; the file is then left alone. *)
Definition writeData (disk : Disk) (data : list Entry) : Completion Disk :=
  if writable disk
  then Normal (mkDisk (Document data) (readable disk) (writable disk))
  else Throw "Failed to save data".



(** [data.slice(-n)]: the last [n] elements, all of them when there are
    fewer. *)
Definition sliceLast {A} (n : nat) (data : list A) : list A :=
  skipn (List.length data - n) data.

(** [data.push(entry)] followed by the [splice] that keeps the last 100. *)
Definition pushCapped (data : list Entry) (entry : Entry) : list Entry :=
  let data := (data ++ [entry])%list in
  if (100 <? List.length data)%nat
  then skipn (List.length data - 100) data
  else data.

End Store.

(** ** The HTTP handlers *)

Module Api.
Import Js Store.

Inductive Body :=
| EntriesBody (entries : list Entry)
| ResultBody (name dateOfBirth zodiacSign : string)
| ValidationBody (details : list string)
| ErrorBody (error : string).

Record Response := mkResponse {
  status : Z;
  body : Body
}.

(** [res.json(b)] and [res.status(code).json(b)]. *)
Definition json (b : Body) : Response := mkResponse 200 b.
Definition statusJson (code : Z) (b : Body) : Response := mkResponse code b.

(** The three readings of the clock a submission makes: [new Date()] in
    [validateInput], [Date.now()] for the id, [new Date()] for the
    timestamp. *)
Record Clock := mkClock {
  atValidation : Z;
  atId : Z;
  atTimestamp : Z
}.

(** [GET /api/entries]. *)
Definition getEntries (disk : Disk) : Response :=
  match Normal (rev (sliceLast 10 (readData disk))) with
  | Normal recentEntries => json (EntriesBody recentEntries)
  | Throw _ => statusJson 500 (ErrorBody "Failed to fetch entries")
  end.

(** The entry a submission creates. *)
Definition makeEntry (clock : Clock) (v : Validation.ValidationResult)
    (zodiacSign : string) : Entry :=
  mkEntry (numberToString (atId clock))
          (Validation.sanitizedName v)
          (Validation.sanitizedDate v)
          zodiacSign
          (toISOString (atTimestamp clock)).

(** The body of the [try] block of [POST /api/calculate]: the response and
    the state of the file, or the exception that escaped. *)
Definition calculateBody (env : Env) (clock : Clock) (disk : Disk)
    (name dateOfBirth : JsVal) : Completion (Response * Disk) :=
  bind (Validation.validateInput env (atValidation clock) name dateOfBirth)
    (fun validation =>
  if negb (Validation.isValid validation) then
    Normal (statusJson 400 (ValidationBody (Validation.errors validation)), disk)
  else
    let zodiacSign :=
      Zodiac.calculateZodiacSign env (Validation.sanitizedDate validation) in
    let entry := makeEntry clock validation zodiacSign in
    let data := pushCapped (readData disk) entry in
    bind (writeData disk data) (fun disk' =>
    Normal (json (ResultBody (Validation.sanitizedName validation)
                             (Validation.sanitizedDate validation)
                             zodiacSign), disk'))).

(** [POST /api/calculate]: the [catch] turns any exception into a 500; the
    only step that changes the file is the last one that can throw, so the
    file is then as it was. *)
Definition postCalculate (env : Env) (clock : Clock) (disk : Disk)
    (name dateOfBirth : JsVal) : Response * Disk :=
  match calculateBody env clock disk name dateOfBirth with
  | Normal r => r
  | Throw _ => (statusJson 500 (ErrorBody "Internal server error"), disk)
  end.

(** A run of submissions, one after the other. *)
Record Submission := mkSubmission {
  subClock : Clock;
  subName : JsVal;
  subDate : JsVal
}.

(** The entry a submission appends when it passes validation. *)
Definition submissionEntry (env : Env) (clock : Clock) (name dateOfBirth : JsVal)
  : option Entry :=
  match Validation.validateInput env (atValidation clock) name dateOfBirth with
  | Normal v =>
      if Validation.isValid v
      then Some (makeEntry clock v
                   (Zodiac.calculateZodiacSign env (Validation.sanitizedDate v)))
      else None
  | Throw _ => None
  end.

(** The entries of the submissions of a run that pass validation. *)
Definition accepted (env : Env) (subs : list Submission) : list Entry :=
  flat_map (fun s =>
              match submissionEntry env (subClock s) (subName s) (subDate s) with
              | Some e => [e]
              | None => []
              end) subs.

Fixpoint postAll (env : Env) (disk : Disk) (subs : list Submission) : Disk :=
  match subs with
  | [] => disk
  | s :: rest =>
      postAll env (snd (postCalculate env (subClock s) disk (subName s) (subDate s))) rest
  end.

End Api.

(** ** What the validator lets through *)

Module Sanitizing.
Import Js.

(** The name with each apostrophe written as the entity [&#x27;]. *)
Fixpoint escapeApostrophes (s : string) : string :=
  match s with
  | EmptyString => EmptyString
  | String c rest =>
      if Ascii.eqb c "'" then ("&#x27;" ++ escapeApostrophes rest)%string
      else String c (escapeApostrophes rest)
  end.

(** How many apostrophes a string holds. *)
Fixpoint apostrophes (s : string) : Z :=
  match s with
  | EmptyString => 0
  | String c rest => (if Ascii.eqb c "'" then 1 else 0) + apostrophes rest
  end.

(** The characters [validator.escape] replaces, the ampersand apart. *)
Definition rawMarkup (c : ascii) : bool :=
  Ascii.eqb c Validator.quoteChar || Ascii.eqb c "'" || Ascii.eqb c "<"
  || Ascii.eqb c ">" || Ascii.eqb c "/" || Ascii.eqb c Validator.backslashChar
  || Ascii.eqb c "`".

(** A field that is there and is not a string: the value on which
    [.trim()] is called without being a method. *)
Definition wrongType (v : JsVal) : bool := truthy v && negb (isString v).

(** The day before a date of the calendar. *)
Definition dayBefore (t : Z * Z * Z) : Z * Z * Z :=
  let '(y, m, d) := t in
  if 1 <? d then (y, m, d - 1)
  else if 1 <? m then (y, m - 1, Calendar.daysInMonthOf y (m - 1))
  else (y - 1, 12, 31).

End Sanitizing.

(** ** Starting the server and serving requests *)

Module Server.
Import Js Store Api.



(** The two requests that touch the data file. *)
Inductive Request :=
| GetEntries
| PostCalculate (s : Submission).

Definition serve (env : Env) (disk : Disk) (req : Request) : Response * Disk :=
  match req with
  | GetEntries => (getEntries disk, disk)
  | PostCalculate s => postCalculate env (subClock s) disk (subName s) (subDate s)
  end.

(** The requests of a list served one after the other: the responses, in
    order, and the file at the end. *)
Fixpoint serveAll (env : Env) (disk : Disk) (reqs : list Request)
  : list Response * Disk :=
  match reqs with
  | [] => ([], disk)
  | req :: rest =>
      let '(resp, disk') := serve env disk req in
      let '(resps, final) := serveAll env disk' rest in
      (resp :: resps, final)
  end.

(** The entries the file holds, none when it holds no array. *)
Definition stored (disk : Disk) : list Entry :=
  match content disk with
  | Document entries => entries
  | Missing | Garbled => []
  end.

(** The responses of a run that list entries list at most 10. *)
Definition shortLists (resps : list Response) : Prop :=
  Forall (fun r => forall entries,
            body r = EntriesBody entries -> (List.length entries <= 10)%nat) resps.

End Server.

(** ** The client, [App.tsx] *)

Module Client.
Import Js Store Api.

(** One value of the [zodiacInfo] table. The symbol is a single character
    above U+00FF and is kept as its code unit. *)
Record SignInfo := mkInfo {
  symbol : Z;
  description : string;
  element : string;
  color : string
}.

Definition zodiacInfo : list (string * SignInfo) :=
  [ ("Aries", mkInfo 9800 "The Ram - Bold and ambitious" "Fire" "text-red-500");
    ("Taurus", mkInfo 9801 "The Bull - Reliable and practical" "Earth" "text-green-500");
    ("Gemini", mkInfo 9802 "The Twins - Adaptable and curious" "Air" "text-yellow-500");
    ("Cancer", mkInfo 9803 "The Crab - Intuitive and emotional" "Water" "text-blue-500");
    ("Leo", mkInfo 9804 "The Lion - Generous and warm-hearted" "Fire" "text-orange-500");
    ("Virgo", mkInfo 9805 "The Maiden - Analytical and kind" "Earth" "text-green-600");
    ("Libra", mkInfo 9806 "The Scales - Diplomatic and fair-minded" "Air" "text-pink-500");
    ("Scorpio", mkInfo 9807 "The Scorpion - Brave and passionate" "Water" "text-purple-500");
    ("Sagittarius",
     mkInfo 9808 "The Archer - Adventurous and philosophical" "Fire" "text-indigo-500");
    ("Capricorn",
     mkInfo 9809 "The Goat - Responsible and disciplined" "Earth" "text-gray-600");
    ("Aquarius",
     mkInfo 9810 "The Water Bearer - Progressive and original" "Air" "text-cyan-500");
    ("Pisces", mkInfo 9811 "The Fish - Intuitive and gentle" "Water" "text-blue-400") ].

(** [zodiacInfo[sign]] as far as the fields read from it go: a key that is
    not one of the table's own has no [symbol], [description], [element] or
    [color]. *)
Fixpoint lookupInfo (table : list (string * SignInfo)) (sign : string)
  : option SignInfo :=
  match table with
  | [] => None
  | (k, info) :: rest => if String.eqb k sign then Some info else lookupInfo rest sign
  end.

(** What the page shows for a sign: [zodiacInfo[sign]?.f || fallback] for
    each of the four fields. *)
Record Display := mkDisplay {
  shownSymbol : Z;
  shownDescription : string;
  shownElement : string;
  shownColor : string
}.

Definition fallbackDisplay : Display :=
  mkDisplay 11088 "Your cosmic identity awaits" "Cosmic" "text-white".

Definition orElse (s fallback : string) : string :=
  if String.eqb s "" then fallback else s.

Definition display (sign : string) : Display :=
  match lookupInfo zodiacInfo sign with
  | Some info =>
      mkDisplay (symbol info)
                (orElse (description info) (shownDescription fallbackDisplay))
                (orElse (element info) (shownElement fallbackDisplay))
                (orElse (color info) (shownColor fallbackDisplay))
  | None => fallbackDisplay
  end.

Record FormData := mkForm {
  formName : string;
  formDate : string
}.

Record ZodiacResult := mkResult {
  resultName : string;
  resultDate : string;
  resultSign : string
}.

(** The state of the component, with the number of [setTimeout] timers
    that are still to fire. *)
Record AppState := mkApp {
  formData : FormData;
  result : option ZodiacResult;
  recentEntries : list Entry;
  loading : bool;
  error : string;
  showSuccess : bool;
  timers : nat
}.

Definition initialState : AppState :=
  mkApp (mkForm "" "") None [] false "" false 0.

(** The two inputs of the form, by their [name] attribute. *)
Inductive Field := NameField | DateField.

(** [handleInputChange]. *)
Definition handleInputChange (s : AppState) (field : Field) (value : string)
  : AppState :=
  let form :=
    match field with
    | NameField => mkForm value (formDate (formData s))
    | DateField => mkForm (formName (formData s)) value
    end in
  mkApp form (result s) (recentEntries s) (loading s) "" (showSuccess s) (timers s).

(** How a [fetch] ends: it rejects, or it resolves with a body that is not
    JSON, or it resolves with one of the server's responses. *)
Inductive Outcome :=
| Rejected
| NotJson (status : Z)
| Answered (r : Response).

(** [response.ok]. *)
Definition okStatus (status : Z) : bool := (200 <=? status) && (status <=? 299).

(** [data.success], [data.error], [data.result] and [data.entries] on the
    bodies the server sends. *)
Definition successOf (b : Body) : bool :=
  match b with
  | EntriesBody _ | ResultBody _ _ _ => true
  | ValidationBody _ | ErrorBody _ => false
  end.

Definition errorOf (b : Body) : string :=
  match b with
  | ValidationBody _ => "Validation failed"
  | ErrorBody e => e
  | EntriesBody _ | ResultBody _ _ _ => ""
  end.

Definition resultOf (b : Body) : option ZodiacResult :=
  match b with
  | ResultBody n d z => Some (mkResult n d z)
  | _ => None
  end.

Definition entriesOf (b : Body) : list Entry :=
  match b with
  | EntriesBody entries => entries
  | _ => []
  end.

(** [fetchRecentEntries]: the list is replaced when the response is ok and
    its body parses; anything else leaves it as it is. *)
Definition fetchRecentEntries (s : AppState) (get : Outcome) : AppState :=
  match get with
  | Answered r =>
      if okStatus (status r)
      then mkApp (formData s) (result s) (entriesOf (body r)) (loading s)
                 (error s) (showSuccess s) (timers s)
      else s
  | Rejected | NotJson _ => s
  end.

(** Whether a response counts as a success: [response.ok && data.success]. *)
Definition succeeded (post : Outcome) : bool :=
  match post with
  | Answered r => okStatus (status r) && successOf (body r)
  | Rejected | NotJson _ => false
  end.

Definition msgNetwork : string :=
  "Network error. Please check if the server is running.".
Definition msgFailed : string := "Failed to calculate zodiac sign".

(** [handleSubmit], run to its end with the outcome [post] of the request
    and the outcome [get] of the refresh that follows a success. *)
Definition handleSubmit (s : AppState) (post get : Outcome) : AppState :=
  let started :=
    mkApp (formData s) (result s) (recentEntries s) true "" (showSuccess s) (timers s) in
  let finished :=
    match post with
    | Answered r =>
        if okStatus (status r) && successOf (body r) then
          let shown :=
            mkApp (formData started) (resultOf (body r)) (recentEntries started)
                  (loading started) (error started) true (timers started) in
          let refreshed := fetchRecentEntries shown get in
          mkApp (mkForm "" "") (result refreshed) (recentEntries refreshed)
                (loading refreshed) (error refreshed) (showSuccess refreshed)
                (S (timers refreshed))
        else
          mkApp (formData started) (result started) (recentEntries started)
                (loading started) (orElse (errorOf (body r)) msgFailed)
                (showSuccess started) (timers started)
    | Rejected | NotJson _ =>
        mkApp (formData started) (result started) (recentEntries started)
              (loading started) msgNetwork (showSuccess started) (timers started)
    end in
  mkApp (formData finished) (result finished) (recentEntries finished) false
        (error finished) (showSuccess finished) (timers finished).

(** A timer set by a success fires: [setShowSuccess(false)]. *)
Definition timerFires (s : AppState) : AppState :=
  mkApp (formData s) (result s) (recentEntries s) (loading s) (error s) false
        (Nat.pred (timers s)).

(** The body the client posts, [JSON.stringify(formData)], as the server
    reads it: two strings. *)
Definition postedName (s : AppState) : JsVal := JsString (formName (formData s)).
Definition postedDate (s : AppState) : JsVal := JsString (formDate (formData s)).

(** A submission of the form against the server: the request reaches the
    handler, and after a success so does the refresh. *)
Definition submit (env : Env) (clock : Clock) (disk : Disk) (s : AppState)
  : AppState * Disk :=
  let '(r, disk') := postCalculate env clock disk (postedName s) (postedDate s) in
  (handleSubmit s (Answered r) (Answered (getEntries disk')), disk').

End Client.

(** ** Sample data *)

Module Samples.
Import Js Store Api.

(** The instant [hh:mm] UTC of a calendar date. *)
Definition instant (year month day hh mm : Z) : Z :=
  daysFromCivil year month day * msPerDay + hh * 3600000 + mm * msPerMinute.

(** Three readings of the clock around 15:00 UTC on 2 November 2026. *)
Definition afternoon : Clock :=
  mkClock (instant 2026 11 2 15 0) (instant 2026 11 2 15 0 + 1)
          (instant 2026 11 2 15 0 + 2).

Definition utc : Env := Validator.isoHost 0.

(** A host five hours west of Greenwich. *)
Definition fiveWest : Env := Validator.isoHost (-300).

Definition emptyDisk : Disk := mkDisk (Document []) true true.
Definition garbledDisk : Disk := mkDisk Garbled true true.

Definition ada : Submission :=
  mkSubmission afternoon (JsString "Ada Lovelace") (JsString "1990-03-21").


End Samples.

(** * Properties *)

(** ** The calendar arithmetic *)

Module CalendarFacts.
Import Js Calendar.

(** Linear arithmetic with the divisions by constants written out. *)
Ltac dlia := Z.div_mod_to_equations; lia.

(** Case analysis on every comparison of the goal. *)
Ltac split_tests :=
  repeat match goal with
  | |- context [?a >? ?b] => rewrite (Z.gtb_ltb a b)
  | |- context [?a <? ?b] => destruct (Z.ltb_spec a b)
  | |- context [?a <=? ?b] => destruct (Z.leb_spec a b)
  end.

Lemma month_cases (m : Z) :
  1 <= m <= 12 ->
  m = 1 \/ m = 2 \/ m = 3 \/ m = 4 \/ m = 5 \/ m = 6 \/
  m = 7 \/ m = 8 \/ m = 9 \/ m = 10 \/ m = 11 \/ m = 12.
Proof. lia. Qed.

Lemma isLeap_true y :
  isLeap y = true <-> y mod 4 = 0 /\ (y mod 100 <> 0 \/ y mod 400 = 0).
Proof.
  unfold isLeap.
  rewrite andb_true_iff, orb_true_iff, negb_true_iff, !Z.eqb_eq, Z.eqb_neq.
  tauto.
Qed.

Lemma valid_march_bounds y m d : validCivil (y, m, d) <-> marchBounds y m d.
Proof.
  unfold validCivil, marchBounds, marchMonth. cbn [fst snd].
  split.
  - intros [Hm Hd]. split; [exact Hm|].
    destruct (month_cases m Hm) as [E|[E|[E|[E|[E|[E|[E|[E|[E|[E|[E|E]]]]]]]]]]];
      subst m; cbn [daysInMonthOf Z.gtb Z.compare Pos.compare Pos.compare_cont] in *;
      try dlia.
    destruct (isLeap y) eqn:L.
    + apply isLeap_true in L. dlia.
    + dlia.
  - intros [Hm Hd]. split; [exact Hm|].
    destruct (month_cases m Hm) as [E|[E|[E|[E|[E|[E|[E|[E|[E|[E|[E|E]]]]]]]]]]];
      subst m; cbn [daysInMonthOf Z.gtb Z.compare Pos.compare Pos.compare_cont] in *;
      try dlia.
    destruct (isLeap y) eqn:L.
    + dlia.
    + assert (d <> 29).
      { intro E. destruct Hd as (_ & _ & Hd). destruct (Hd eq_refl) as [_ H29].
        apply H29 in E. apply isLeap_true in E. congruence. }
      dlia.
Qed.

(** Every day number is the day number of a date of the calendar. *)
Lemma civil_valid k : validCivil (civilFromDays k).
Proof.
  unfold civilFromDays. cbv zeta. apply valid_march_bounds.
  unfold marchBounds, marchMonth.
  set (z := k + 719468).
  set (era := z / 146097).
  set (doe := z - era * 146097).
  set (yoe := (doe - doe / 1460 + doe / 36524 - doe / 146096) / 365).
  set (doy := doe - (365 * yoe + yoe / 4 - yoe / 100)).
  set (mp := (5 * doy + 2) / 153).
  assert (Hdoe : 0 <= doe < 146097) by (subst doe era; dlia).
  assert (Hyoe : 0 <= yoe <= 399) by (subst yoe; dlia).
  assert (Hdoy : 0 <= doy <= 365) by (subst doy yoe; dlia).
  assert (Hleap : doy = 365 ->
                  (yoe + 1) mod 4 = 0 /\ ((yoe + 1) mod 100 <> 0 \/ yoe = 399))
    by (subst doy yoe; dlia).
  assert (Hmp : 0 <= mp <= 11) by (subst mp; dlia).
  assert (Hd : 5 * doy + 2 = 153 * mp + (5 * doy + 2) mod 153
               /\ 0 <= (5 * doy + 2) mod 153 < 153)
    by (subst mp; dlia).
  clearbody mp doy yoe era.
  split_tests; dlia.
Qed.

(** [daysFromCivil] undoes [civilFromDays]. *)
Lemma days_of_civil k :
  daysFromCivil (fst (fst (civilFromDays k))) (snd (fst (civilFromDays k)))
                (snd (civilFromDays k)) = k.
Proof.
  unfold civilFromDays. cbv zeta. cbn [fst snd].
  unfold daysFromCivil. cbv zeta.
  split_tests; dlia.
Qed.

Lemma civilLt_true a b :
  civilLt a b = true <->
  fst (fst a) < fst (fst b)
  \/ (fst (fst a) = fst (fst b)
      /\ (snd (fst a) < snd (fst b)
          \/ (snd (fst a) = snd (fst b) /\ snd a < snd b))).
Proof.
  destruct a as [[ya ma] da], b as [[yb mb] db]. unfold civilLt. cbn [fst snd].
  rewrite !orb_true_iff, !andb_true_iff, !orb_true_iff, !andb_true_iff,
    !Z.ltb_lt, !Z.eqb_eq.
  tauto.
Qed.

Lemma civilLt_cases a b : a = b \/ civilLt a b = true \/ civilLt b a = true.
Proof.
  rewrite !civilLt_true. destruct a as [[ya ma] da], b as [[yb mb] db].
  cbn [fst snd].
  destruct (Z.lt_trichotomy ya yb) as [H|[H|H]]; [lia| |lia].
  destruct (Z.lt_trichotomy ma mb) as [H'|[H'|H']]; [lia| |lia].
  destruct (Z.lt_trichotomy da db) as [H''|[H''|H'']]; [lia| |lia].
  left. congruence.
Qed.

Lemma civilLt_irrefl a : civilLt a a = false.
Proof.
  destruct (civilLt a a) eqn:E; [|reflexivity].
  apply civilLt_true in E. lia.
Qed.

(** A later date has a larger day number. Of the earlier date only the
    end of its month matters, of the later one only that its day is at
    least 1. *)
Lemma days_mono y m d Y M D :
  validCivil (y, m, d) -> 1 <= M <= 12 -> 1 <= D ->
  civilLt (y, m, d) (Y, M, D) = true ->
  daysFromCivil y m d < daysFromCivil Y M D.
Proof.
  rewrite valid_march_bounds, civilLt_true. cbn [fst snd].
  unfold marchBounds, marchMonth, daysFromCivil. cbv zeta.
  split_tests; intros Ha Hm Hd Hlt; dlia.
Qed.

(** [civilFromDays] undoes [daysFromCivil] on the dates of the calendar. *)
Lemma civil_of_days y m d :
  validCivil (y, m, d) -> civilFromDays (daysFromCivil y m d) = (y, m, d).
Proof.
  intro Hv.
  pose proof (civil_valid (daysFromCivil y m d)) as Hc.
  pose proof (days_of_civil (daysFromCivil y m d)) as Hk.
  destruct (civilFromDays (daysFromCivil y m d)) as [[a b] c]. cbn [fst snd] in Hk.
  pose proof Hv as [Hm Hd]. pose proof Hc as [Hm' Hd']. cbn [fst snd] in *.
  destruct (civilLt_cases (a, b, c) (y, m, d)) as [E|[L|L]]; [exact E| |].
  - apply days_mono in L; try assumption; lia.
  - apply days_mono in L; try assumption; lia.
Qed.

(** The order of the day numbers is the order of the dates. *)
Lemma civil_mono k k' :
  k < k' <-> civilLt (civilFromDays k) (civilFromDays k') = true.
Proof.
  pose proof (civil_valid k) as Hv. pose proof (civil_valid k') as Hv'.
  pose proof (days_of_civil k) as Hk. pose proof (days_of_civil k') as Hk'.
  destruct (civilFromDays k) as [[a b] c], (civilFromDays k') as [[a' b'] c'].
  cbn [fst snd] in Hk, Hk'.
  pose proof Hv as [Hm Hd]. pose proof Hv' as [Hm' Hd']. cbn [fst snd] in *.
  split.
  - intro Hlt. destruct (civilLt_cases (a, b, c) (a', b', c')) as [E|[L|L]].
    + injection E as -> -> ->. lia.
    + exact L.
    + apply days_mono in L; try assumption; lia.
  - intro L. apply days_mono in L; try assumption; lia.
Qed.

(** [MakeDay] on a month of the year is the day number of the date, when
    the day runs over the end of the month as well. *)
Lemma makeDay_days y m d :
  1 <= m <= 12 -> makeDay y (m - 1) d = daysFromCivil y m d.
Proof.
  intro Hm. unfold makeDay.
  rewrite Z.div_small, Z.mod_small by lia.
  replace (y + 0) with y by lia. replace (m - 1 + 1) with m by lia.
  unfold daysFromCivil. cbv zeta. lia.
Qed.

(** The same month and day 120 years before a date of the calendar may
    be a 29 February that does not exist; its day number is then that of
    1 March, and the dates after it are the dates from 1 March on. *)
Lemma days_le_shifted y m d Y M D :
  validCivil (y, m, d) -> validCivil (Y, M, D) ->
  civilLt (y - 120, m, d) (Y, M, D) = true ->
  daysFromCivil (y - 120) m d <= daysFromCivil Y M D.
Proof.
  rewrite !valid_march_bounds, civilLt_true. cbn [fst snd].
  unfold marchBounds, marchMonth, daysFromCivil. cbv zeta.
  split_tests; intros Ha Hb Hlt; dlia.
Qed.

(** From the epoch on, the year is at least 1970. *)
Lemma year_from_epoch k : 0 <= k -> 1970 <= fst (fst (civilFromDays k)).
Proof.
  intro Hk. destruct (Z.eq_dec k 0) as [->|Hne]; [vm_compute; discriminate|].
  assert (H : 0 < k) by lia. apply civil_mono in H. apply civilLt_true in H.
  change (civilFromDays 0) with (1970, 1, 1) in H. cbn [fst snd] in H. lia.
Qed.

End CalendarFacts.

(** ** Date strings *)

Module DateFacts.
Import Js Calendar CalendarFacts.

Lemma days_day_linear y m d :
  daysFromCivil y m d = daysFromCivil y m 1 + d - 1.
Proof. unfold daysFromCivil. cbv zeta. lia. Qed.

Lemma month_has_days y m : 1 <= m <= 12 -> 28 <= daysInMonthOf y m <= 31.
Proof.
  intro Hm.
  destruct (month_cases m Hm) as [E|[E|[E|[E|[E|[E|[E|[E|[E|[E|[E|E]]]]]]]]]]];
    subst m; cbn [daysInMonthOf]; try lia.
  destruct (isLeap y); lia.
Qed.

(** A day of the month that comes back unchanged from the day number did
    not run over the end of the month. *)
Lemma day_kept_valid y m d :
  1 <= m <= 12 -> 1 <= d ->
  snd (civilFromDays (daysFromCivil y m d)) = d ->
  validCivil (y, m, d).
Proof.
  intros Hm Hd Hkept.
  pose proof (civil_valid (daysFromCivil y m d)) as Hv.
  pose proof (days_of_civil (daysFromCivil y m d)) as Hk.
  destruct (civilFromDays (daysFromCivil y m d)) as [[a b] c].
  cbn [fst snd] in Hk, Hkept. subst c.
  pose proof Hv as [Hb Hc]. cbn [fst snd] in Hb, Hc.
  rewrite (days_day_linear a b d), (days_day_linear y m d) in Hk.
  assert (Ha1 : validCivil (a, b, 1)).
  { split; cbn [fst snd]; [exact Hb|]. pose proof (month_has_days a b Hb). lia. }
  assert (Hy1 : validCivil (y, m, 1)).
  { split; cbn [fst snd]; [exact Hm|]. pose proof (month_has_days y m Hm). lia. }
  destruct (civilLt_cases (a, b, 1) (y, m, 1)) as [E|[L|L]].
  - injection E as -> ->. exact Hv.
  - apply days_mono in L; try assumption; lia.
  - apply days_mono in L; try assumption; lia.
Qed.

(** What [new Date] makes of a date-only string whose fields are in
    range. *)
Lemma parseIsoDate_fields s y m d :
  isoFields s = Some (y, m, d) -> 1 <= m <= 12 -> 1 <= d <= 31 ->
  parseIsoDate s = Some (daysFromCivil y m d * msPerDay).
Proof.
  intros Hf Hm Hd. unfold parseIsoDate. rewrite Hf.
  replace ((1 <=? m) && (m <=? 12) && (1 <=? d) && (d <=? 31)) with true
    by (symmetry; rewrite !andb_true_iff, !Z.leb_le; lia).
  now rewrite makeDay_days.
Qed.

Lemma day_of_midnight k : (k * msPerDay) / msPerDay = k.
Proof. apply Z.div_mul. discriminate. Qed.

(** The strings [validator.isDate] accepts among those of the form
    [YYYY-MM-DD] are the ones that name a date of the calendar. *)
Lemma isIsoCalendarDate_valid s :
  Validator.isIsoCalendarDate s = true <->
  exists y m d, isoFields s = Some (y, m, d) /\ validCivil (y, m, d).
Proof.
  unfold Validator.isIsoCalendarDate. split.
  - unfold parseIsoDate. destruct (isoFields s) as [[[y m] d]|]; [|discriminate].
    destruct ((1 <=? m) && (m <=? 12) && (1 <=? d) && (d <=? 31)) eqn:Hr;
      [|discriminate].
    rewrite !andb_true_iff, !Z.leb_le in Hr.
    rewrite makeDay_days by lia. unfold dateFromTime. rewrite day_of_midnight.
    intro H. apply Z.eqb_eq in H.
    exists y, m, d. split; [reflexivity|]. apply day_kept_valid; lia.
  - intros (y & m & d & Hf & Hv). pose proof Hv as [Hm Hd]. cbn [fst snd] in *.
    pose proof (month_has_days y m Hm).
    rewrite (parseIsoDate_fields s y m d Hf) by lia. rewrite Hf.
    unfold dateFromTime. rewrite day_of_midnight, civil_of_days by assumption.
    apply Z.eqb_refl.
Qed.

(** Midnight UTC is on the same day in every zone at or east of
    Greenwich. *)
Lemma local_day_east k tz :
  0 <= tz < 1440 -> (k * msPerDay + tz * msPerMinute) / msPerDay = k.
Proof.
  intro H. unfold msPerMinute, msPerDay.
  symmetry. apply (Z.div_unique _ _ _ (tz * 60000)); lia.
Qed.

(** On a host at or east of Greenwich, [calculateZodiacSign] classifies
    the month and the day written in the string. *)
Lemma calculateZodiacSign_east tz s y m d :
  0 <= tz < 1440 ->
  isoFields s = Some (y, m, d) -> validCivil (y, m, d) ->
  Zodiac.calculateZodiacSign (Validator.isoHost tz) s = Zodiac.classify m d.
Proof.
  intros Htz Hf Hv. pose proof Hv as [Hm Hd]. cbn [fst snd] in *.
  pose proof (month_has_days y m Hm).
  unfold Zodiac.calculateZodiacSign.
  cbn [Validator.isoHost parseDate].
  rewrite (parseIsoDate_fields s y m d Hf) by lia.
  unfold getMonth, getDate, option_map, monthFromTime, dateFromTime, localTime.
  cbn [tzOffset]. rewrite local_day_east by assumption.
  rewrite civil_of_days by assumption. cbn [fst snd].
  now replace (m - 1 + 1) with m by lia.
Qed.

End DateFacts.

(** ** The classifier partitions the calendar *)

Module ZodiacFacts.
Import Js Zodiac.
Import CalendarFacts.

Lemma geb_true (d k : Z) : k <= d -> (d >=? k) = true.
Proof. intro H. rewrite Z.geb_leb. now apply Z.leb_le. Qed.

Lemma geb_false (d k : Z) : d < k -> (d >=? k) = false.
Proof. intro H. rewrite Z.geb_leb. now apply Z.leb_gt. Qed.

Lemma leb_true (d k : Z) : d <= k -> (d <=? k) = true.
Proof. apply Z.leb_le. Qed.

Lemma leb_false (d k : Z) : k < d -> (d <=? k) = false.
Proof. apply Z.leb_gt. Qed.

(** Settle every test on the day [d] from the bounds in the context. *)
Ltac settle_day_tests d :=
  repeat match goal with
  | |- context [d >=? ?k] =>
      first [ rewrite (geb_true d k) by lia | rewrite (geb_false d k) by lia ]
  | |- context [d <=? ?k] =>
      first [ rewrite (leb_true d k) by lia | rewrite (leb_false d k) by lia ]
  end.

(** Unfold the table and the loop and decide the tests on the month, which
    leaves the tests on the day. *)
Ltac expose_table :=
  cbv [matching classify zodiacSigns rangeMatches firstMatch filter
       startMonth startDay endMonth endDay sign
       Z.eqb Z.gtb Z.ltb Z.compare Pos.eqb Pos.compare Pos.compare_cont
       andb orb].

(** In each of the twelve months, and whatever the day, exactly one range
    accepts the date, and the loop returns its sign. *)
Lemma one_range_per_date (m d : Z) :
  1 <= m <= 12 ->
  matching m d = [rangeOf m d] /\ classify m d = sign (rangeOf m d).
Proof.
  intro Hm. unfold rangeOf.
  destruct (month_cases m Hm) as [E|[E|[E|[E|[E|[E|[E|[E|[E|[E|[E|E]]]]]]]]]]];
    subst m; cbv [cusp];
    match goal with
    | |- context [d <? ?k] => destruct (Z.ltb_spec d k)
    end;
    expose_table; settle_day_tests d; split; reflexivity.
Qed.

Lemma rangeOf_in_table (m d : Z) : 1 <= m <= 12 -> In (rangeOf m d) zodiacSigns.
Proof.
  intro Hm. unfold rangeOf.
  destruct (month_cases m Hm) as [E|[E|[E|[E|[E|[E|[E|[E|[E|[E|[E|E]]]]]]]]]]];
    subst m; destruct (d <? _); cbv [endingIn startingIn zodiacSigns];
    simpl; tauto.
Qed.

Lemma unknown_not_a_label : ~ In "Unknown" signLabels.
Proof.
  cbv [signLabels zodiacSigns map sign]. simpl.
  intros H; repeat (destruct H as [H|H]; [discriminate H|]); exact H.
Qed.

(** The [for] loop returns ['Unknown'] only when no range of the list
    accepts the date. *)
Lemma firstMatch_unknown (signs : list ZodiacRange) (m d : Z) :
  ~ In "Unknown" (map sign signs) ->
  firstMatch signs m d = "Unknown" ->
  forall z, In z signs -> rangeMatches z m d = false.
Proof.
  induction signs as [|r rest IH]; intros Hlab Hres z Hz.
  - destruct Hz.
  - simpl in Hres. destruct (rangeMatches r m d) eqn:Hr.
    + exfalso. apply Hlab. left. exact Hres.
    + destruct Hz as [->|Hz]; [exact Hr|].
      apply IH; auto. intro Hin. apply Hlab. right. exact Hin.
Qed.

(** Whatever the zone of the host, a string that [new Date] reads as a
    date is classified under one of the twelve labels: the month the
    function reads back is in 1..12. *)
Lemma calculateZodiacSign_labelled env dateString t :
  parseDate env dateString = Some t ->
  In (calculateZodiacSign env dateString) signLabels.
Proof.
  intro Ht. unfold calculateZodiacSign. rewrite Ht.
  unfold getMonth, getDate, option_map, monthFromTime, dateFromTime.
  pose proof (civil_valid (localTime env t / msPerDay)) as [Hm _].
  destruct (civilFromDays (localTime env t / msPerDay)) as [[y m] d].
  cbn [fst snd] in *. replace (m - 1 + 1) with m by lia.
  destruct (one_range_per_date m d Hm) as [_ Hcls]. rewrite Hcls.
  apply in_map. now apply rangeOf_in_table.
Qed.

(** C1: on every valid calendar date (February 29 included) exactly one of
    the twelve ranges, taken in the order Capricorn, Aquarius, ...,
    Sagittarius, accepts the date, and the classifier returns the sign of
    that range, one of the twelve labels; the 366 dates of the calendar are
    shared out among the ranges without gap or overlap; the first and the
    last date of each range belong to it, and 3/20 is Pisces while 3/21 is
    Aries. On any host, [calculateZodiacSign] returns one of the twelve
    labels for every string that [new Date] reads as a date. *)
Theorem classifier_partitions_calendar :
  signLabels =
    ["Capricorn"; "Aquarius"; "Pisces"; "Aries"; "Taurus"; "Gemini";
     "Cancer"; "Leo"; "Virgo"; "Libra"; "Scorpio"; "Sagittarius"]
  /\ (forall month day, validDate month day ->
        exists z, In z zodiacSigns
                  /\ matching month day = [z]
                  /\ classify month day = sign z
                  /\ In (classify month day) signLabels)
  /\ (List.length calendar = 366%nat
      /\ Forall (fun md => validDate (fst md) (snd md)) calendar
      /\ fold_right Nat.add 0%nat daysPerSign = 366%nat)
  /\ (forall z, In z zodiacSigns ->
        classify (startMonth z) (startDay z) = sign z
        /\ classify (endMonth z) (endDay z) = sign z)
  /\ classify 3 20 = "Pisces" /\ classify 3 21 = "Aries"
  /\ (forall env dateString t,
        parseDate env dateString = Some t ->
        In (calculateZodiacSign env dateString) signLabels).
Proof.
  split; [reflexivity|].
  split.
  { intros m d [Hm _].
    destruct (one_range_per_date m d Hm) as [Hone Hcls].
    exists (rangeOf m d).
    split; [now apply rangeOf_in_table|].
    split; [exact Hone|]. split; [exact Hcls|].
    rewrite Hcls. apply in_map. now apply rangeOf_in_table. }
  split.
  { split; [reflexivity|]. split; [|reflexivity].
    unfold calendar. cbv [daysFrom Z.to_nat Pos.to_nat Pos.iter_op Nat.add
                          flat_map map app daysInMonth Z.add Pos.add Pos.succ].
    repeat constructor; cbv [validDate daysInMonth fst snd]; lia. }
  split.
  { intros z Hz. cbv [zodiacSigns] in Hz. simpl in Hz.
    repeat (destruct Hz as [<-|Hz]; [split; reflexivity|]). destruct Hz. }
  split; [reflexivity|]. split; [reflexivity|].
  intros env s t Ht. apply calculateZodiacSign_labelled with t. exact Ht.
Qed.

(** C1, at a date: February 29. *)
Lemma classifier_partitions_calendar_witness :
  validDate 2 29 /\
  exists z, In z zodiacSigns /\ matching 2 29 = [z]
            /\ classify 2 29 = sign z /\ In (classify 2 29) signLabels.
Proof.
  assert (H : validDate 2 29) by (cbv [validDate daysInMonth]; lia).
  split; [exact H|].
  exact (proj1 (proj2 classifier_partitions_calendar) 2 29 H).
Defined.

(** C10: the ['Unknown'] fallback cannot be reached on the whole rectangle
    of months 1..12 and days 1..31, impossible dates such as February 30
    included: some range of the list accepts the date and the classifier
    returns one of the twelve labels. *)
Theorem unknown_unreachable_on_rectangle (month day : Z) :
  1 <= month <= 12 -> 1 <= day <= 31 ->
  (exists z, In z zodiacSigns /\ rangeMatches z month day = true)
  /\ In (classify month day) signLabels
  /\ classify month day <> "Unknown".
Proof.
  intros Hm _.
  destruct (one_range_per_date month day Hm) as [Hone Hcls].
  assert (Hin : In (rangeOf month day) (matching month day))
    by (rewrite Hone; left; reflexivity).
  apply filter_In in Hin. destruct Hin as [Hin Hmatch].
  assert (Hlab : In (classify month day) signLabels)
    by (rewrite Hcls; apply in_map; exact Hin).
  split; [exists (rangeOf month day); split; assumption|].
  split; [exact Hlab|].
  intro Hu. rewrite Hu in Hlab. exact (unknown_not_a_label Hlab).
Qed.

(** C10, at February 30. *)
Lemma unknown_unreachable_on_rectangle_witness :
  (exists z, In z zodiacSigns /\ rangeMatches z 2 30 = true)
  /\ In (classify 2 30) signLabels
  /\ classify 2 30 <> "Unknown".
Proof.
  apply (unknown_unreachable_on_rectangle 2 30); lia.
Defined.

End ZodiacFacts.

(** ** The capped log *)

Module StoreFacts.
Import Js Store.

Section Slices.
Context {A : Type}.
Implicit Types (l a b r : list A) (n m : nat).

Lemma sliceLast_length n l :
  List.length (sliceLast n l) = Nat.min n (List.length l).
Proof. unfold sliceLast. rewrite length_skipn. lia. Qed.

Lemma sliceLast_all n l : (List.length l <= n)%nat -> sliceLast n l = l.
Proof.
  intro H. unfold sliceLast.
  replace (List.length l - n)%nat with 0%nat by lia. reflexivity.
Qed.

(** The slice is what is left when the oldest elements are dropped. *)
Lemma sliceLast_suffix n l :
  (firstn (List.length l - n) l ++ sliceLast n l)%list = l.
Proof. apply firstn_skipn. Qed.

Lemma sliceLast_app n a b :
  (n <= List.length b)%nat -> sliceLast n (a ++ b) = sliceLast n b.
Proof.
  intro H. unfold sliceLast. rewrite skipn_app, length_app.
  rewrite skipn_all2 by lia. simpl. f_equal. lia.
Qed.

Lemma sliceLast_inner n m l r :
  (n <= m + List.length r)%nat ->
  sliceLast n (sliceLast m l ++ r) = sliceLast n (l ++ r).
Proof.
  intro H.
  destruct (Nat.le_gt_cases (List.length l) m) as [Hle|Hgt].
  - now rewrite (sliceLast_all m l Hle).
  - rewrite <- (sliceLast_suffix m l) at 2. rewrite <- app_assoc.
    symmetry. apply sliceLast_app.
    rewrite length_app, sliceLast_length. lia.
Qed.

Lemma sliceLast_twice n m l : (n <= m)%nat -> sliceLast n (sliceLast m l) = sliceLast n l.
Proof.
  intro H. pose proof (sliceLast_inner n m l []) as E.
  rewrite !app_nil_r in E. apply E. lia.
Qed.

Lemma sliceLast_snoc n l x : sliceLast (S n) (l ++ [x]) = (sliceLast n l ++ [x])%list.
Proof.
  unfold sliceLast. rewrite skipn_app, length_app. simpl.
  replace (List.length l + 1 - S n)%nat with (List.length l - n)%nat by lia.
  replace (List.length l - n - List.length l)%nat with 0%nat by lia.
  reflexivity.
Qed.

Lemma sliceLast_In n l x : In x (sliceLast n l) -> In x l.
Proof.
  intro H. rewrite <- (sliceLast_suffix n l). apply in_or_app. now right.
Qed.

End Slices.

Lemma pushCapped_slice (data : list Entry) (e : Entry) :
  pushCapped data e = sliceLast 100 (data ++ [e]).
Proof.
  unfold pushCapped, sliceLast.
  destruct (Nat.ltb_spec 100 (List.length (data ++ [e]))) as [H|H].
  - reflexivity.
  - replace (List.length (data ++ [e]) - 100)%nat with 0%nat by lia. reflexivity.
Qed.

(** A run of appends keeps the last 100 of everything that was there or
    came in. *)
Lemma pushCapped_run (es data : list Entry) :
  es <> [] -> fold_left pushCapped es data = sliceLast 100 (data ++ es).
Proof.
  revert data. induction es as [|e es IH]; intros data Hne; [congruence|].
  simpl. destruct es as [|e' es].
  - apply pushCapped_slice.
  - rewrite IH by discriminate. rewrite pushCapped_slice.
    rewrite sliceLast_inner by lia. now rewrite <- app_assoc.
Qed.

End StoreFacts.

(** ** The handlers *)

Module ApiFacts.
Import Js Store Api StoreFacts.
Import Validation.

(** What a submission does to a file that can be written. *)
Lemma postCalculate_writable env clock disk name dob :
  writable disk = true ->
  postCalculate env clock disk name dob =
  match Validation.validateInput env (atValidation clock) name dob with
  | Normal v =>
      if Validation.isValid v then
        let sign := Zodiac.calculateZodiacSign env (Validation.sanitizedDate v) in
        (json (ResultBody (Validation.sanitizedName v) (Validation.sanitizedDate v) sign),
         mkDisk (Document (pushCapped (readData disk) (makeEntry clock v sign)))
                (readable disk) true)
      else (statusJson 400 (ValidationBody (Validation.errors v)), disk)
  | Throw _ => (statusJson 500 (ErrorBody "Internal server error"), disk)
  end.
Proof.
  intro Hw. unfold postCalculate, calculateBody.
  destruct (Validation.validateInput _ _ _ _) as [v|m]; simpl; [|reflexivity].
  destruct (Validation.isValid v); simpl; [|reflexivity].
  unfold writeData. rewrite Hw. reflexivity.
Qed.

(** And to one that cannot. *)
Lemma postCalculate_unwritable env clock disk name dob :
  writable disk = false ->
  postCalculate env clock disk name dob =
  match Validation.validateInput env (atValidation clock) name dob with
  | Normal v =>
      if Validation.isValid v
      then (statusJson 500 (ErrorBody "Internal server error"), disk)
      else (statusJson 400 (ValidationBody (Validation.errors v)), disk)
  | Throw _ => (statusJson 500 (ErrorBody "Internal server error"), disk)
  end.
Proof.
  intro Hw. unfold postCalculate, calculateBody.
  destruct (Validation.validateInput _ _ _ _) as [v|m]; simpl; [|reflexivity].
  destruct (Validation.isValid v); simpl; [|reflexivity].
  unfold writeData. rewrite Hw. reflexivity.
Qed.

(** A response with status 200 to a submission means the entry of the
    submission was written. *)
Lemma postCalculate_success env clock disk name dob :
  status (fst (postCalculate env clock disk name dob)) = 200 ->
  exists v,
    Validation.validateInput env (atValidation clock) name dob = Normal v
    /\ Validation.isValid v = true
    /\ writable disk = true
    /\ submissionEntry env clock name dob =
       Some (makeEntry clock v
               (Zodiac.calculateZodiacSign env (Validation.sanitizedDate v)))
    /\ postCalculate env clock disk name dob =
       (json (ResultBody (Validation.sanitizedName v) (Validation.sanitizedDate v)
                (Zodiac.calculateZodiacSign env (Validation.sanitizedDate v))),
        mkDisk (Document (pushCapped (readData disk)
                            (makeEntry clock v
                               (Zodiac.calculateZodiacSign env
                                  (Validation.sanitizedDate v)))))
               (readable disk) true).
Proof.
  intro H. unfold submissionEntry.
  destruct (writable disk) eqn:Hw.
  - rewrite (postCalculate_writable _ _ _ _ _ Hw) in *.
    destruct (Validation.validateInput _ _ _ _) as [v|m]; [|discriminate H].
    destruct (Validation.isValid v) eqn:Hv; [|discriminate H].
    exists v. repeat split; first [reflexivity | assumption].
  - rewrite (postCalculate_unwritable _ _ _ _ _ Hw) in H.
    destruct (Validation.validateInput _ _ _ _) as [v|m]; [|discriminate H].
    destruct (Validation.isValid v); discriminate H.
Qed.

(** Any other response leaves the file as it was. *)
Lemma postCalculate_failure env clock disk name dob :
  status (fst (postCalculate env clock disk name dob)) <> 200 ->
  snd (postCalculate env clock disk name dob) = disk.
Proof.
  intro H. destruct (writable disk) eqn:Hw.
  - rewrite (postCalculate_writable _ _ _ _ _ Hw) in *.
    destruct (Validation.validateInput _ _ _ _) as [v|m]; [|reflexivity].
    destruct (Validation.isValid v); [|reflexivity].
    exfalso. apply H. reflexivity.
  - rewrite (postCalculate_unwritable _ _ _ _ _ Hw).
    destruct (Validation.validateInput _ _ _ _) as [v|m]; [|reflexivity].
    destruct (Validation.isValid v); reflexivity.
Qed.

Lemma string_of_truthy_string (v : JsVal) :
  negb (truthy v) || negb (isString v) = false ->
  exists s, v = JsString s /\ truthy v = true.
Proof.
  intro H. apply orb_false_elim in H. destruct H as [Ht Hs].
  apply negb_false_iff in Ht, Hs.
  destruct v; try discriminate Hs. eexists. split; [reflexivity|exact Ht].
Qed.

Lemma nameErrors_nil name :
  Validation.nameErrors name = [] -> exists s, name = JsString s /\ truthy name = true.
Proof.
  unfold Validation.nameErrors.
  destruct (negb (truthy name) || negb (isString name)) eqn:E; [discriminate|].
  intros _. now apply string_of_truthy_string.
Qed.

Lemma dateErrors_nil env now dob :
  Validation.dateErrors env now dob = [] -> exists s, dob = JsString s /\ truthy dob = true.
Proof.
  unfold Validation.dateErrors.
  destruct (negb (truthy dob) || negb (isString dob)) eqn:E; [discriminate|].
  intros _. now apply string_of_truthy_string.
Qed.

(** A submission is valid only when both fields are strings, and the
    sanitized fields are then the trimmed (and, for the name, escaped)
    strings. *)
Lemma valid_submission_strings env now name dob v :
  Validation.validateInput env now name dob = Normal v ->
  Validation.isValid v = true ->
  exists nameText dateText,
    name = JsString nameText /\ dob = JsString dateText
    /\ Validation.sanitizedName v = Validator.escape (trim nameText)
    /\ Validation.sanitizedDate v = trim dateText
    /\ Validation.errors v = [].
Proof.
  unfold Validation.validateInput. intros Hv Hok.
  destruct (Validation.sanitize Validator.escape name) as [sn|] eqn:En;
    [|discriminate Hv].
  destruct (Validation.sanitize (fun t => t) dob) as [sd|] eqn:Ed;
    [|discriminate Hv].
  simpl in Hv. injection Hv as <-. simpl in *.
  apply Nat.eqb_eq, length_zero_iff_nil in Hok.
  destruct (app_eq_nil _ _ Hok) as [Hn Hd].
  destruct (nameErrors_nil _ Hn) as [s [-> Hs]].
  destruct (dateErrors_nil _ _ _ Hd) as [t [-> Ht]].
  unfold Validation.sanitize in En, Ed. rewrite Hs in En. rewrite Ht in Ed.
  simpl in En, Ed. injection En as <-. injection Ed as <-.
  exists s, t. repeat split; try reflexivity. exact Hok.
Qed.

(** The file after a run of submissions on a file that can be read and
    written. *)
Lemma postAll_document env subs : forall entries,
  postAll env (mkDisk (Document entries) true true) subs =
  mkDisk (Document (fold_left pushCapped (accepted env subs) entries)) true true.
Proof.
  induction subs as [|s subs IH]; intro entries; [reflexivity|].
  cbn [postAll accepted flat_map]. rewrite fold_left_app.
  rewrite postCalculate_writable by reflexivity.
  unfold submissionEntry.
  destruct (Validation.validateInput _ _ _ _) as [v|m]; [|apply IH].
  destruct (Validation.isValid v); [|apply IH].
  cbn [snd readData readable content fold_left]. apply IH.
Qed.



(** C4: the query answers with the last 10 entries of the log, the most
    recent first, and with all of them when there are fewer than 10; after
    105 stored submissions in a row it answers with the entries of the
    last 10 of them, the latest first. *)
Theorem recent_entries_latest_first :
  (forall entries w,
      exists older recent,
        getEntries (mkDisk (Document entries) true w) = json (EntriesBody recent)
        /\ entries = (older ++ rev recent)%list
        /\ List.length recent = Nat.min 10 (List.length entries))
  /\ (forall env entries subs,
        List.length (accepted env subs) = 105%nat ->
        exists first95 last10,
          accepted env subs = (first95 ++ last10)%list
          /\ List.length last10 = 10%nat
          /\ getEntries (postAll env (mkDisk (Document entries) true true) subs)
             = json (EntriesBody (rev last10))).
Proof.
  split.
  - intros entries w.
    exists (firstn (List.length entries - 10) entries), (rev (sliceLast 10 entries)).
    split; [reflexivity|]. rewrite rev_involutive, length_rev, sliceLast_length.
    split; [symmetry; apply sliceLast_suffix|reflexivity].
  - intros env entries subs Hlen.
    exists (firstn (List.length (accepted env subs) - 10) (accepted env subs)),
           (sliceLast 10 (accepted env subs)).
    split; [symmetry; apply sliceLast_suffix|].
    split; [rewrite sliceLast_length; lia|].
    rewrite postAll_document. unfold getEntries. cbn [readData readable content].
    rewrite pushCapped_run by (intro E; rewrite E in Hlen; discriminate Hlen).
    rewrite sliceLast_twice by lia. rewrite sliceLast_app by lia. reflexivity.
Qed.

(** C4, for 105 submissions on the empty log. *)
Lemma recent_entries_latest_first_witness :
  exists first95 last10,
    accepted Samples.utc (repeat Samples.ada 105) = (first95 ++ last10)%list
    /\ List.length last10 = 10%nat
    /\ getEntries (postAll Samples.utc (mkDisk (Document []) true true)
                     (repeat Samples.ada 105))
       = json (EntriesBody (rev last10)).
Proof.
  apply (proj2 recent_entries_latest_first Samples.utc [] (repeat Samples.ada 105)).
  vm_compute. reflexivity.
Defined.



(** C8: the entry a stored submission creates comes back from the query
    as its first entry with its five fields as they were written: the id
    and the timestamp of the clock readings, the name trimmed and escaped
    by the validation, the date trimmed, the sign computed; the response
    to the submission carries the same name, date and sign; the entries
    that follow in the answer are entries of the log as they were. *)
Theorem entry_round_trip env clock disk name dob :
  readable disk = true ->
  status (fst (postCalculate env clock disk name dob)) = 200 ->
  exists nameText dateText older,
    name = JsString nameText /\ dob = JsString dateText /\
    let entry :=
      mkEntry (numberToString (atId clock))
              (Validator.escape (trim nameText))
              (trim dateText)
              (Zodiac.calculateZodiacSign env (trim dateText))
              (toISOString (atTimestamp clock)) in
    submissionEntry env clock name dob = Some entry
    /\ getEntries (snd (postCalculate env clock disk name dob))
       = json (EntriesBody (entry :: older))
    /\ body (fst (postCalculate env clock disk name dob))
       = ResultBody (Store.name entry) (dateOfBirth entry) (zodiacSign entry)
    /\ Forall (fun e => In e (readData disk)) older.
Proof.
  intros Hr H.
  destruct (postCalculate_success _ _ _ _ _ H) as (v & Hv & Hok & _ & He & Hp).
  destruct (valid_submission_strings _ _ _ _ _ Hv Hok)
    as (nameText & dateText & -> & -> & Hn & Hd & _).
  exists nameText, dateText, (rev (sliceLast 9 (readData disk))).
  split; [reflexivity|]. split; [reflexivity|].
  rewrite Hp, He. unfold makeEntry. rewrite Hn, Hd. cbn zeta.
  split; [reflexivity|]. split.
  - unfold getEntries. cbn [snd]. unfold readData at 1. cbn [readable content].
    rewrite Hr, pushCapped_slice, sliceLast_twice by lia.
    rewrite (sliceLast_snoc 9), rev_app_distr. reflexivity.
  - split; [reflexivity|]. apply Forall_forall. intros e Hin.
    apply in_rev in Hin. now apply sliceLast_In in Hin.
Qed.

(** C8, for a submission whose name holds an apostrophe. *)
Lemma entry_round_trip_witness :
  exists nameText dateText older,
    JsString " Ada O'Neil" = JsString nameText
    /\ JsString "1990-03-21" = JsString dateText /\
    let entry :=
      mkEntry (numberToString (atId Samples.afternoon))
              (Validator.escape (trim nameText))
              (trim dateText)
              (Zodiac.calculateZodiacSign Samples.utc (trim dateText))
              (toISOString (atTimestamp Samples.afternoon)) in
    submissionEntry Samples.utc Samples.afternoon
      (JsString " Ada O'Neil") (JsString "1990-03-21") = Some entry
    /\ getEntries (snd (postCalculate Samples.utc Samples.afternoon Samples.emptyDisk
                          (JsString " Ada O'Neil") (JsString "1990-03-21")))
       = json (EntriesBody (entry :: older))
    /\ body (fst (postCalculate Samples.utc Samples.afternoon Samples.emptyDisk
                    (JsString " Ada O'Neil") (JsString "1990-03-21")))
       = ResultBody (Store.name entry) (dateOfBirth entry) (zodiacSign entry)
    /\ Forall (fun e => In e (readData Samples.emptyDisk)) older.
Proof.
  apply (entry_round_trip Samples.utc Samples.afternoon Samples.emptyDisk
           (JsString " Ada O'Neil") (JsString "1990-03-21")).
  - reflexivity.
  - vm_compute. reflexivity.
Defined.

(** C6, as the claim has it, fails: a file that [JSON.parse] rejects is a
    read failure, and the query answers it with status 200. *)
Lemma read_failure_is_not_500 :
  readFails Samples.garbledDisk = true
  /\ status (getEntries Samples.garbledDisk) = 200
  /\ status (getEntries Samples.garbledDisk) <> 500.
Proof. split; [reflexivity|]. split; [reflexivity|discriminate]. Qed.

(** C6, amended: a failed read is caught in [readData] and stands for the
    empty log; it does not make a 500. The query answers 200 with no
    entries, and a submission is answered as it is on a file that holds
    the empty log. *)
Theorem read_failure_is_empty_log disk :
  readFails disk = true ->
  readData disk = []
  /\ getEntries disk = json (EntriesBody [])
  /\ forall env clock name dob,
       fst (postCalculate env clock disk name dob)
       = fst (postCalculate env clock
                (mkDisk (Document []) true (writable disk)) name dob).
Proof.
  intro H.
  assert (Hd : readData disk = []).
  { unfold readFails in H. unfold readData.
    destruct (readable disk); [|reflexivity].
    destruct (content disk); [reflexivity|reflexivity|discriminate H]. }
  split; [exact Hd|]. split.
  - unfold getEntries. rewrite Hd. reflexivity.
  - intros env clock name dob. destruct (writable disk) eqn:Hw.
    + rewrite !postCalculate_writable by assumption || reflexivity.
      destruct (validateInput _ _ _ _) as [v|m]; [|reflexivity].
      destruct (isValid v); reflexivity.
    + rewrite !postCalculate_unwritable by assumption || reflexivity.
      destruct (validateInput _ _ _ _) as [v|m]; [|reflexivity].
      destruct (isValid v); reflexivity.
Qed.

(** C6 amended, on the file that does not parse. *)
Lemma read_failure_is_empty_log_witness :
  readFails Samples.garbledDisk = true
  /\ getEntries Samples.garbledDisk = json (EntriesBody []).
Proof.
  split; [reflexivity|].
  exact (proj1 (proj2 (read_failure_is_empty_log Samples.garbledDisk eq_refl))).
Defined.

End ApiFacts.

(** ** The validator *)

Module ValidationFacts.
Import Js Validation Rules.

Lemma nameErrors_first_violation env now name dob :
  nameErrors name = firstViolation env now name dob nameRules.
Proof.
  unfold nameErrors, firstViolation, nameRules. cbn [find violates].
  destruct (negb (truthy name) || negb (isString name)) eqn:E; [reflexivity|].
  destruct (ApiFacts.string_of_truthy_string _ E) as [s [-> _]].
  cbn [isString stringOf andb].
  destruct (strlen (trim s) <? 2); [reflexivity|].
  destruct (strlen (trim s) >? 50); [reflexivity|].
  destruct (negb (nameRegex (trim s))); reflexivity.
Qed.

Lemma dateErrors_first_violation env now name dob :
  dateErrors env now dob = firstViolation env now name dob dateRules.
Proof.
  unfold dateErrors, firstViolation, dateRules. cbn [find violates].
  destruct (negb (truthy dob) || negb (isString dob)) eqn:E; [reflexivity|].
  destruct (ApiFacts.string_of_truthy_string _ E) as [s [-> _]].
  cbn [isString stringOf andb].
  destruct (negb (isDate env s)); [reflexivity|]. cbn zeta.
  destruct (dateGt (parseDate env s) (Some now)); [reflexivity|].
  destruct (dateLt (parseDate env s) (hundredYearsAgo env (Some now))); reflexivity.
Qed.

Lemma firstViolation_nil env now name dob rules :
  firstViolation env now name dob rules = [] <->
  forall r, In r rules -> violates env now name dob r = false.
Proof.
  unfold firstViolation. split.
  - destruct (find _ rules) eqn:E; [discriminate|]. intros _ r Hr.
    exact (find_none _ _ E r Hr).
  - intro H. destruct (find _ rules) as [r|] eqn:E; [|reflexivity].
    apply find_some in E. destruct E as [Hin Hv].
    rewrite (H r Hin) in Hv. discriminate Hv.
Qed.

Lemma errors_of_validateInput env now name dob v :
  validateInput env now name dob = Normal v ->
  errors v = (nameErrors name ++ dateErrors env now dob)%list
  /\ isValid v = Nat.eqb (List.length (errors v)) 0.
Proof.
  unfold validateInput. intro H.
  destruct (sanitize Validator.escape name); [|discriminate H].
  destruct (sanitize (fun t => t) dob); [|discriminate H].
  simpl in H. injection H as <-. split; reflexivity.
Qed.

(** C2, as the claim has it, fails: the name ["1"] is too short and holds
    a digit, and only the first of the two violations is reported. *)
Lemma second_name_violation_unreported :
  ~ reportsAllViolations Samples.utc (Samples.instant 2026 11 2 15 0)
      (JsString "1") (JsString "1990-03-21").
Proof.
  intro H.
  specialize (H (mkValidation false [msgNameShort] "1" "1990-03-21") eq_refl
                NameCharacters eq_refl).
  simpl in H. destruct H as [H|[]]. discriminate H.
Qed.

(** C2, amended: the validator reports the first violation among the rules
    of the name, taken in the order required, minimum length, maximum
    length, characters, then the first violation among the rules of the
    date, taken in the order required, parseable, not in the future, not
    more than 120 years back; the two groups are checked independently of
    each other, and the input is valid exactly when it breaks no rule. *)
Theorem first_violation_per_field env now name dob v :
  validateInput env now name dob = Normal v ->
  errors v = (firstViolation env now name dob nameRules
              ++ firstViolation env now name dob dateRules)%list
  /\ (isValid v = true <-> forall r, violates env now name dob r = false).
Proof.
  intro H. destruct (errors_of_validateInput _ _ _ _ _ H) as [He Hv].
  rewrite (nameErrors_first_violation env now name dob) in He.
  rewrite (dateErrors_first_violation env now name dob) in He.
  split; [exact He|].
  rewrite Hv, Nat.eqb_eq, length_zero_iff_nil, He. split.
  - intros E r. apply app_eq_nil in E. destruct E as [En Ed].
    destruct r;
      first [ apply (proj1 (firstViolation_nil _ _ _ _ _) En); simpl; tauto
            | apply (proj1 (firstViolation_nil _ _ _ _ _) Ed); simpl; tauto ].
  - intro Hall.
    rewrite (proj2 (firstViolation_nil env now name dob nameRules)) by auto.
    rewrite (proj2 (firstViolation_nil env now name dob dateRules)) by auto.
    reflexivity.
Qed.

(** C2 amended, on the name ["1"] with an empty date: one message for the
    name, one for the date. *)
Lemma first_violation_per_field_witness :
  let now := Samples.instant 2026 11 2 15 0 in
  let v := mkValidation false [msgNameShort; msgDateRequired] "1" "" in
  validateInput Samples.utc now (JsString "1") (JsString "") = Normal v
  /\ errors v
     = (firstViolation Samples.utc now (JsString "1") (JsString "") nameRules
        ++ firstViolation Samples.utc now (JsString "1") (JsString "") dateRules)%list.
Proof.
  intros now v.
  assert (Hv : validateInput Samples.utc now (JsString "1") (JsString "") = Normal v)
    by reflexivity.
  split; [exact Hv|].
  exact (proj1 (first_violation_per_field Samples.utc now
                  (JsString "1") (JsString "") v Hv)).
Defined.

(** At UTC the validator keeps to the window of the specification. For a
    clock after the epoch and a string [YYYY-MM-DD] that names a date of
    the calendar, the date errors are those of the window on calendar
    dates: in the future when the birth date is after today, too old when
    it is before the same month and day 120 years back, none otherwise. *)
Lemma window_at_utc (now : Z) (s : string) (birth : Z * Z * Z) :
  0 <= now ->
  isoFields s = Some birth -> Calendar.validCivil birth ->
  dateErrors Samples.utc now (JsString s)
  = windowErrors (localDate Samples.utc now) birth.
Proof.
  intros Hnow Hf Hv. destruct birth as [[Y M] D].
  pose proof Hv as [HM HD]. cbn [fst snd] in HM, HD.
  pose proof (DateFacts.month_has_days Y M HM) as Hlen.
  assert (Hs : truthy (JsString s) = true).
  { destruct s; [discriminate Hf|reflexivity]. }
  assert (Hd : Validator.isIsoCalendarDate s = true).
  { apply DateFacts.isIsoCalendarDate_valid. now exists Y, M, D. }
  unfold dateErrors. rewrite Hs. cbn [isString negb orb stringOf].
  cbn [Samples.utc Validator.isoHost isDate parseDate].
  rewrite Hd, (DateFacts.parseIsoDate_fields s Y M D Hf) by lia.
  cbn [negb]. cbv zeta.
  unfold localDate, hundredYearsAgo, getFullYear, getMonth, getDate, option_map,
    localTime, yearFromTime, monthFromTime, dateFromTime.
  cbn [tzOffset]. rewrite Z.mul_0_l, Z.add_0_r.
  set (today := now / msPerDay).
  assert (Htoday : 0 <= today) by (subst today; unfold msPerDay; CalendarFacts.dlia).
  pose proof (CalendarFacts.civil_valid today) as Hvt.
  pose proof (CalendarFacts.year_from_epoch today Htoday) as Hyear.
  pose proof (CalendarFacts.civil_mono today (daysFromCivil Y M D)) as Hmono.
  rewrite (CalendarFacts.civil_of_days Y M D Hv) in Hmono.
  destruct (civilFromDays today) as [[ty tm] td].
  pose proof Hvt as [Htm Htd]. cbn [fst snd] in Htm, Htd, Hyear |- *.
  unfold newDateYMD, utcOfLocal. cbn [tzOffset]. rewrite Z.mul_0_l, Z.sub_0_r.
  replace ((0 <=? ty - 120) && (ty - 120 <=? 99)) with false
    by (symmetry; apply andb_false_iff; rewrite !Z.leb_gt; lia).
  rewrite CalendarFacts.makeDay_days by assumption.
  unfold windowErrors, dateGt, dateLt.
  assert (Hgt : (daysFromCivil Y M D * msPerDay >? now)
                = Calendar.civilLt (ty, tm, td) (Y, M, D)).
  { apply Bool.eq_iff_eq_true. rewrite <- Hmono, Z.gtb_ltb, Z.ltb_lt.
    subst today. unfold msPerDay. split; intro; CalendarFacts.dlia. }
  assert (Hlt : (daysFromCivil Y M D * msPerDay
                 <? daysFromCivil (ty - 120) tm td * msPerDay)
                = Calendar.civilLt (Y, M, D) (ty - 120, tm, td)).
  { apply Bool.eq_iff_eq_true. rewrite Z.ltb_lt. split.
    - intro H.
      destruct (CalendarFacts.civilLt_cases (Y, M, D) (ty - 120, tm, td))
        as [E|[L|L]]; [|exact L|].
      + injection E as -> -> ->. unfold msPerDay in H. lia.
      + apply CalendarFacts.days_le_shifted in L; try assumption.
        unfold msPerDay in H. lia.
    - intro L. apply CalendarFacts.days_mono in L; try assumption; try lia.
      unfold msPerDay. lia. }
  rewrite Hgt, Hlt. reflexivity.
Qed.

(** C7, at an input that breaks it. On a host five hours west of
    Greenwich, at 15:00 UTC on 2 November 2026, today is 2 November 2026
    and the birth date 1906-11-02 is the same month and day 120 years
    back, so it is inside the window and the specification asks for no
    date error; the validator answers that it is more than 120 years ago.
    The string is read as midnight UTC and compared with midnight local
    time. On a host at UTC the same input gets no error. *)
Theorem window_west_of_greenwich :
  let now := Samples.instant 2026 11 2 15 0 in
  localDate Samples.fiveWest now = (2026, 11, 2)
  /\ isDate Samples.fiveWest "1906-11-02" = true
  /\ windowErrors (localDate Samples.fiveWest now) (1906, 11, 2) = []
  /\ dateErrors Samples.fiveWest now (JsString "1906-11-02") = [msgDateOld]
  /\ dateErrors Samples.utc now (JsString "1906-11-02") = [].
Proof. vm_compute. repeat split; reflexivity. Qed.

(** East of Greenwich it is the other bound that moves: at 20:00 UTC on
    2 November 2026 a host ten hours east is at 3 November, and the birth
    date 2026-11-03, which is today there, is answered as in the future. *)
Lemma window_east_of_greenwich :
  let env := Validator.isoHost 600 in
  let now := Samples.instant 2026 11 2 20 0 in
  localDate env now = (2026, 11, 3)
  /\ windowErrors (localDate env now) (2026, 11, 3) = []
  /\ dateErrors env now (JsString "2026-11-03") = [msgDateFuture].
Proof. vm_compute. repeat split; reflexivity. Qed.

End ValidationFacts.

(** ** The example of the specification *)

Module ExampleFacts.
Import Js Store Api.

(** C9, at a host that breaks it. Five hours west of Greenwich the date
    string 1990-03-21, read as midnight UTC, is 20 March 19:00 local time:
    the classifier sees month 3 and day 20, and the submission of Ada
    Lovelace is answered with Pisces where the specification has Aries. *)
Theorem ada_west_of_greenwich (entries : list Entry) :
  let date := parseDate Samples.fiveWest "1990-03-21" in
  option_map (fun m => m + 1) (getMonth Samples.fiveWest date) = Some 3
  /\ getDate Samples.fiveWest date = Some 20
  /\ Zodiac.calculateZodiacSign Samples.fiveWest "1990-03-21" = "Pisces"
  /\ fst (postCalculate Samples.fiveWest Samples.afternoon
            (mkDisk (Document entries) true true)
            (JsString "Ada Lovelace") (JsString "1990-03-21"))
     = json (ResultBody "Ada Lovelace" "1990-03-21" "Pisces").
Proof.
  split; [reflexivity|]. split; [reflexivity|]. split; [reflexivity|].
  rewrite ApiFacts.postCalculate_writable by reflexivity.
  reflexivity.
Qed.

(** On a host at or east of Greenwich the example is as the specification
    has it: the classifier sees month 3 and day 21 and the answer is
    Aries. *)
Lemma ada_east_of_greenwich (tz : Z) :
  0 <= tz < 1440 ->
  let env := Validator.isoHost tz in
  let date := parseDate env "1990-03-21" in
  option_map (fun m => m + 1) (getMonth env date) = Some 3
  /\ getDate env date = Some 21
  /\ Zodiac.calculateZodiacSign env "1990-03-21" = "Aries".
Proof.
  intros H env date.
  assert (Hday : localTime env 637977600000 / msPerDay = 7384)
    by (apply (DateFacts.local_day_east 7384 tz H)).
  assert (Hp : date = Some 637977600000) by reflexivity.
  rewrite Hp.
  unfold getMonth, getDate, option_map, monthFromTime, dateFromTime.
  rewrite Hday. split; [reflexivity|]. split; [reflexivity|].
  apply (DateFacts.calculateZodiacSign_east tz "1990-03-21" 1990 3 21 H eq_refl).
  split; cbn; lia.
Qed.

(** At UTC the whole submission is answered as the specification says. *)
Lemma ada_at_utc (entries : list Entry) :
  fst (postCalculate Samples.utc Samples.afternoon
         (mkDisk (Document entries) true true)
         (JsString "Ada Lovelace") (JsString "1990-03-21"))
  = json (ResultBody "Ada Lovelace" "1990-03-21" "Aries").
Proof.
  rewrite ApiFacts.postCalculate_writable by reflexivity. reflexivity.
Qed.

End ExampleFacts.

(** * Further properties *)

(** ** The classifier beyond the calendar *)

Module ClassifierExtras.
Import Js Calendar Zodiac Sanitizing.
Import CalendarFacts DateFacts ZodiacFacts.

(** A range of the table accepts only months of the year. *)
Lemma rangeMatches_month z m d :
  In z zodiacSigns -> rangeMatches z m d = true -> 1 <= m <= 12.
Proof.
  intros Hz. cbv [zodiacSigns] in Hz. simpl in Hz.
  repeat (destruct Hz as [<-|Hz];
          [ unfold rangeMatches; cbn [startMonth startDay endMonth endDay];
            match goal with
            | |- context [if ?c then _ else _] =>
                let v := eval vm_compute in c in change c with v
            end;
            cbv iota;
            rewrite ?orb_true_iff, ?andb_true_iff, ?Z.eqb_eq, ?Z.gtb_ltb, ?Z.ltb_lt;
            lia | ]).
  destruct Hz.
Qed.

Lemma firstMatch_none signs m d :
  (forall z, In z signs -> rangeMatches z m d = false) ->
  firstMatch signs m d = "Unknown".
Proof.
  induction signs as [|r rest IH]; intro H; [reflexivity|].
  simpl. rewrite (H r) by (left; reflexivity).
  apply IH. intros z Hz. apply H. right. exact Hz.
Qed.

(** X1: on integers, the classifier answers ['Unknown'] exactly when the
    month is not one of 1..12; the day plays no part in it, so that day 0
    or day 99 of a month of the year still gets a sign. *)
Theorem classify_unknown_iff (month day : Z) :
  classify month day = "Unknown" <-> ~ (1 <= month <= 12).
Proof.
  split.
  - intros Hu Hm. destruct (one_range_per_date month day Hm) as [_ Hcls].
    apply unknown_not_a_label. rewrite <- Hu, Hcls.
    apply in_map. now apply rangeOf_in_table.
  - intro Hm. apply firstMatch_none. intros z Hz.
    destruct (rangeMatches z month day) eqn:E; [|reflexivity].
    exfalso. apply Hm. exact (rangeMatches_month z month day Hz E).
Qed.

(** X2: on any host, [calculateZodiacSign] answers ['Unknown'] exactly
    when [new Date] cannot read the string: an invalid date is the only
    way to the fallback. *)
Theorem unknown_iff_invalid_date (env : Env) (dateString : string) :
  calculateZodiacSign env dateString = "Unknown"
  <-> parseDate env dateString = None.
Proof.
  split.
  - intro Hu. destruct (parseDate env dateString) as [t|] eqn:Ht; [|reflexivity].
    exfalso. apply unknown_not_a_label. rewrite <- Hu.
    now apply calculateZodiacSign_labelled with t.
  - intro Hn. unfold calculateZodiacSign. rewrite Hn. reflexivity.
Qed.

(** X3: on a host at or east of Greenwich (offset 0 to 23 h 59), a string
    [YYYY-MM-DD] that names a date of the calendar is classified by the
    month and the day written in it, whatever the year. *)
Theorem sign_of_written_date_east (tz : Z) (s : string) (y m d : Z) :
  0 <= tz < 1440 ->
  isoFields s = Some (y, m, d) -> validCivil (y, m, d) ->
  calculateZodiacSign (Validator.isoHost tz) s = classify m d.
Proof. apply calculateZodiacSign_east. Qed.

(** X3, in the zone UTC+05:30. *)
Lemma sign_of_written_date_east_witness :
  calculateZodiacSign (Validator.isoHost 330) "2024-02-29" = classify 2 29.
Proof.
  apply (sign_of_written_date_east 330 "2024-02-29" 2024 2 29).
  - lia.
  - reflexivity.
  - split; cbn; lia.
Defined.

Lemma local_day_west k tz :
  -1440 <= tz < 0 -> (k * msPerDay + tz * msPerMinute) / msPerDay = k - 1.
Proof.
  intro H. unfold msPerMinute, msPerDay.
  symmetry. apply (Z.div_unique _ _ _ (86400000 + tz * 60000)); lia.
Qed.

(** The day before a date of the calendar is a date of the calendar, and
    its day number is one less. *)
Lemma dayBefore_days y m d :
  validCivil (y, m, d) ->
  validCivil (dayBefore (y, m, d))
  /\ (let '(y', m', d') := dayBefore (y, m, d) in daysFromCivil y' m' d')
     = daysFromCivil y m d - 1.
Proof.
  intros [Hm Hd]. cbn [fst snd] in Hm, Hd. unfold dayBefore.
  destruct (Z.ltb_spec 1 d) as [H1|H1].
  - split; [split; cbn [fst snd]; lia|].
    rewrite (days_day_linear y m (d - 1)), (days_day_linear y m d). lia.
  - assert (d = 1) by lia. subst d.
    destruct (Z.ltb_spec 1 m) as [H2|H2].
    + assert (Hm' : 1 <= m - 1 <= 12) by lia.
      pose proof (month_has_days y (m - 1) Hm') as Hlen.
      split; [split; cbn [fst snd]; lia|].
      destruct (month_cases m Hm) as [E|[E|[E|[E|[E|[E|[E|[E|[E|[E|[E|E]]]]]]]]]]];
        subst m; try lia;
        cbn [Z.sub Z.add Z.opp Z.pos_sub Pos.pred_double Z.succ_double
             Z.pred_double Z.double daysInMonthOf];
        try (unfold daysFromCivil; cbv zeta; split_tests; dlia).
      destruct (isLeap y) eqn:L.
      * apply isLeap_true in L. unfold daysFromCivil. cbv zeta. split_tests; dlia.
      * assert (Hn : ~ (y mod 4 = 0 /\ (y mod 100 <> 0 \/ y mod 400 = 0)))
          by (rewrite <- isLeap_true, L; discriminate).
        unfold daysFromCivil. cbv zeta. split_tests; dlia.
    + assert (m = 1) by lia. subst m.
      split; [split; cbn; lia|].
      unfold daysFromCivil. cbv zeta. split_tests; dlia.
Qed.

(** X4: on a host west of Greenwich (offset down to 24 h), the same string
    is classified by the day before the one written in it: midnight UTC is
    still the evening before in local time. *)
Theorem sign_of_day_before_west (tz : Z) (s : string) (y m d : Z) :
  -1440 <= tz < 0 ->
  isoFields s = Some (y, m, d) -> validCivil (y, m, d) ->
  calculateZodiacSign (Validator.isoHost tz) s
  = classify (snd (fst (dayBefore (y, m, d)))) (snd (dayBefore (y, m, d))).
Proof.
  intros Htz Hf Hv. pose proof Hv as [Hm Hd]. cbn [fst snd] in Hm, Hd.
  pose proof (month_has_days y m Hm).
  destruct (dayBefore_days y m d Hv) as [Hvb Hdays].
  destruct (dayBefore (y, m, d)) as [[y' m'] d'] eqn:Eb. cbn [fst snd].
  unfold calculateZodiacSign. cbn [Validator.isoHost parseDate].
  rewrite (parseIsoDate_fields s y m d Hf) by lia.
  unfold getMonth, getDate, option_map, monthFromTime, dateFromTime, localTime.
  cbn [tzOffset]. rewrite local_day_west by assumption.
  rewrite <- Hdays, civil_of_days by assumption. cbn [fst snd].
  now replace (m' - 1 + 1) with m' by lia.
Qed.

(** X4, five hours west on the first day of Aries and on New Year's Day. *)
Lemma sign_of_day_before_west_witness :
  calculateZodiacSign (Validator.isoHost (-300)) "1990-03-21" = classify 3 20
  /\ calculateZodiacSign (Validator.isoHost (-300)) "2000-01-01" = classify 12 31.
Proof.
  split.
  - apply (sign_of_day_before_west (-300) "1990-03-21" 1990 3 21);
      [lia|reflexivity|split; cbn; lia].
  - apply (sign_of_day_before_west (-300) "2000-01-01" 2000 1 1);
      [lia|reflexivity|split; cbn; lia].
Defined.

End ClassifierExtras.

(** ** The validator on the values it is given *)

Module ValidatorExtras.
Import Js Calendar Validation Rules Store Api Sanitizing.
Import ApiFacts.

(** X5: on a host at UTC, for a clock after the epoch and a string
    [YYYY-MM-DD] that names a date of the calendar, the validator rejects
    the date as in the future exactly when it is after today's date,
    as too old exactly when it is before the same month and day 120 years
    back, and accepts it otherwise; the time of day plays no part. *)
Theorem utc_validator_keeps_window (now : Z) (s : string) (birth : Z * Z * Z) :
  0 <= now ->
  isoFields s = Some birth -> validCivil birth ->
  dateErrors Samples.utc now (JsString s)
  = windowErrors (localDate Samples.utc now) birth.
Proof. apply ValidationFacts.window_at_utc. Qed.

(** X5, one second before midnight on 2 November 2026, for a birth date
    120 years back to the day. *)
Lemma utc_validator_keeps_window_witness :
  dateErrors Samples.utc (Samples.instant 2026 11 2 23 59) (JsString "1906-11-02")
  = windowErrors (localDate Samples.utc (Samples.instant 2026 11 2 23 59))
                 (1906, 11, 2).
Proof.
  apply (utc_validator_keeps_window (Samples.instant 2026 11 2 23 59)
           "1906-11-02" (1906, 11, 2)).
  - vm_compute. discriminate.
  - reflexivity.
  - split; cbn; lia.
Defined.

(** On a character of a name, [validator.escape] rewrites the apostrophe
    and nothing else. *)
Lemma escapeChar_nameChar c :
  nameChar c = true ->
  Validator.escapeChar c
  = if Ascii.eqb c "'" then "&#x27;" else String c EmptyString.
Proof.
  destruct c as [[] [] [] [] [] [] [] []]; intro H;
    first [discriminate H | reflexivity].
Qed.

Lemma nameChar_not_markup c :
  nameChar c = true -> Ascii.eqb c "'" = false -> rawMarkup c = false.
Proof.
  destruct c as [[] [] [] [] [] [] [] []]; intros H H';
    first [discriminate H | discriminate H' | reflexivity].
Qed.

Lemma escape_name t :
  allChars nameChar t = true -> Validator.escape t = escapeApostrophes t.
Proof.
  induction t as [|c t IH]; intro H; [reflexivity|].
  simpl in H. apply andb_true_iff in H. destruct H as [Hc Ht].
  cbn [Validator.escape escapeApostrophes].
  rewrite (escapeChar_nameChar c Hc), (IH Ht).
  destruct (Ascii.eqb c "'"); reflexivity.
Qed.

Lemma strlen_cons c t : strlen (String c t) = 1 + strlen t.
Proof. unfold strlen. cbn [String.length]. lia. Qed.

Lemma escapeApostrophes_length t :
  strlen (escapeApostrophes t) = strlen t + 5 * apostrophes t.
Proof.
  induction t as [|c t IH]; [reflexivity|].
  cbn [escapeApostrophes apostrophes]. destruct (Ascii.eqb c "'").
  - change ("&#x27;" ++ escapeApostrophes t)%string
      with (String "&" (String "#" (String "x" (String "2" (String "7"
             (String ";" (escapeApostrophes t))))))).
    rewrite !strlen_cons, IH. lia.
  - rewrite !strlen_cons, IH. lia.
Qed.

Lemma apostrophes_bounds t : 0 <= apostrophes t <= strlen t.
Proof.
  induction t as [|c t IH]; [unfold strlen; cbn; lia|].
  cbn [apostrophes]. rewrite strlen_cons. destruct (Ascii.eqb c "'"); lia.
Qed.

Lemma escapeApostrophes_clean t :
  allChars nameChar t = true ->
  allChars (fun c => negb (rawMarkup c)) (escapeApostrophes t) = true.
Proof.
  induction t as [|c t IH]; intro H; [reflexivity|].
  simpl in H. apply andb_true_iff in H. destruct H as [Hc Ht].
  cbn [escapeApostrophes]. destruct (Ascii.eqb c "'") eqn:E.
  - change ("&#x27;" ++ escapeApostrophes t)%string
      with (String "&" (String "#" (String "x" (String "2" (String "7"
             (String ";" (escapeApostrophes t))))))).
    cbn [allChars]. rewrite (IH Ht). reflexivity.
  - cbn [allChars]. rewrite (nameChar_not_markup c Hc E), (IH Ht). reflexivity.
Qed.

(** X6: when the validator finds nothing wrong with the name, the name is
    a string whose trimmed text has 2 to 50 characters, all of them
    letters, white space, hyphens or apostrophes, and the sanitized name
    is that text with each apostrophe written [&#x27;] and nothing else
    changed: it is 5 characters longer for each apostrophe, so up to 300
    characters long, and holds no quote, apostrophe, angle bracket, slash,
    backslash or backquote. *)
Theorem accepted_name_sanitized env now name dob v :
  validateInput env now name dob = Normal v ->
  nameErrors name = [] ->
  exists s,
    name = JsString s
    /\ 2 <= strlen (trim s) <= 50
    /\ allChars nameChar (trim s) = true
    /\ sanitizedName v = escapeApostrophes (trim s)
    /\ strlen (sanitizedName v) = strlen (trim s) + 5 * apostrophes (trim s)
    /\ 2 <= strlen (sanitizedName v) <= 300
    /\ allChars (fun c => negb (rawMarkup c)) (sanitizedName v) = true.
Proof.
  intros Hv Hn.
  destruct (nameErrors_nil _ Hn) as [s [-> Hs]]. exists s.
  split; [reflexivity|].
  unfold nameErrors in Hn. rewrite Hs in Hn. cbn [isString negb orb stringOf] in Hn.
  destruct (Z.ltb_spec (strlen (trim s)) 2) as [H2|H2]; [discriminate Hn|].
  rewrite Z.gtb_ltb in Hn.
  destruct (Z.ltb_spec 50 (strlen (trim s))) as [H50|H50]; [discriminate Hn|].
  destruct (nameRegex (trim s)) eqn:Hre; [|discriminate Hn].
  unfold nameRegex in Hre. apply andb_true_iff in Hre. destruct Hre as [_ Hall].
  assert (Hsan : sanitizedName v = escapeApostrophes (trim s)).
  { unfold validateInput, sanitize in Hv. rewrite Hs in Hv. cbn [trimMethod bind] in Hv.
    destruct (if truthy dob then bind (trimMethod dob) (fun t => Normal t) else Normal "")
      as [sd|]; [|discriminate Hv].
    cbn [bind] in Hv. injection Hv as <-. cbn [sanitizedName].
    now apply escape_name. }
  pose proof (apostrophes_bounds (trim s)).
  split; [lia|]. split; [exact Hall|]. split; [exact Hsan|].
  rewrite Hsan, escapeApostrophes_length.
  split; [reflexivity|]. split; [lia|]. now apply escapeApostrophes_clean.
Qed.

(** X6, on a name with an apostrophe and spaces around it. *)
Lemma accepted_name_sanitized_witness :
  exists s,
    JsString "  Ada O'Neil " = JsString s
    /\ 2 <= strlen (trim s) <= 50
    /\ allChars nameChar (trim s) = true
    /\ sanitizedName (mkValidation true [] "Ada O&#x27;Neil" "1990-03-21")
       = escapeApostrophes (trim s)
    /\ strlen (sanitizedName (mkValidation true [] "Ada O&#x27;Neil" "1990-03-21"))
       = strlen (trim s) + 5 * apostrophes (trim s)
    /\ 2 <= strlen (sanitizedName (mkValidation true [] "Ada O&#x27;Neil" "1990-03-21"))
       <= 300
    /\ allChars (fun c => negb (rawMarkup c))
         (sanitizedName (mkValidation true [] "Ada O&#x27;Neil" "1990-03-21")) = true.
Proof.
  apply (accepted_name_sanitized Samples.utc (Samples.instant 2026 11 2 15 0)
           (JsString "  Ada O'Neil ") (JsString "1990-03-21")).
  - vm_compute. reflexivity.
  - vm_compute. reflexivity.
Defined.

Lemma sanitize_completion f v :
  sanitize f v = if wrongType v then Throw typeError
                 else Normal (if truthy v then f (trim (stringOf v)) else "").
Proof.
  unfold sanitize, wrongType.
  destruct v as [| |[|]|n|s|]; cbn; try reflexivity.
  - destruct (n =? 0); reflexivity.
  - destruct (String.eqb s ""); reflexivity.
Qed.

(** X7: a field that is there without being a string (a number other than
    0, [true], an object or an array) makes [validateInput] throw a
    [TypeError] whatever the other field is, and the submission is
    answered with status 500 and ['Internal server error'], the file left
    as it was; on any other input [validateInput] returns its result. *)
Theorem wrong_type_is_500 env clock disk name dob :
  if wrongType name || wrongType dob then
    validateInput env (atValidation clock) name dob = Throw typeError
    /\ postCalculate env clock disk name dob
       = (statusJson 500 (ErrorBody "Internal server error"), disk)
  else
    exists v, validateInput env (atValidation clock) name dob = Normal v.
Proof.
  assert (Hv : validateInput env (atValidation clock) name dob
               = if wrongType name || wrongType dob then Throw typeError
                 else Normal (mkValidation
                        (Nat.eqb (List.length (nameErrors name
                           ++ dateErrors env (atValidation clock) dob)) 0)
                        (nameErrors name ++ dateErrors env (atValidation clock) dob)
                        (if truthy name then Validator.escape (trim (stringOf name))
                         else "")
                        (if truthy dob then trim (stringOf dob) else ""))).
  { unfold validateInput. rewrite !sanitize_completion.
    destruct (wrongType name), (wrongType dob); reflexivity. }
  destruct (wrongType name || wrongType dob).
  - split; [exact Hv|]. unfold postCalculate, calculateBody. rewrite Hv. reflexivity.
  - eexists. exact Hv.
Qed.

(** X8: a submission without a name (the field missing, [null], [false],
    0 or the empty string) is answered with status 400 and
    ['Name is required'] as its first detail, followed by what the date
    chain finds, and the file is left as it was; with neither field the
    details are the two ['... is required'] messages. *)
Theorem missing_fields_are_400 env clock disk name dob :
  truthy name = false -> wrongType dob = false ->
  postCalculate env clock disk name dob
  = (statusJson 400
       (ValidationBody (msgNameRequired :: dateErrors env (atValidation clock) dob)),
     disk)
  /\ (truthy dob = false ->
      postCalculate env clock disk name dob
      = (statusJson 400 (ValidationBody [msgNameRequired; msgDateRequired]), disk)).
Proof.
  intros Hn Hd.
  assert (Hne : nameErrors name = [msgNameRequired]).
  { unfold nameErrors. rewrite Hn. reflexivity. }
  assert (Hp : postCalculate env clock disk name dob
               = (statusJson 400
                    (ValidationBody
                       (msgNameRequired :: dateErrors env (atValidation clock) dob)),
                  disk)).
  { unfold postCalculate, calculateBody, validateInput.
    rewrite !sanitize_completion, Hd. unfold wrongType. rewrite Hn, Hne.
    reflexivity. }
  split; [exact Hp|].
  intro Hdt. rewrite Hp. unfold dateErrors. rewrite Hdt. reflexivity.
Qed.

(** X8, on an empty body. *)
Lemma missing_fields_are_400_witness :
  postCalculate Samples.utc Samples.afternoon Samples.emptyDisk JsUndefined JsUndefined
  = (statusJson 400 (ValidationBody [msgNameRequired; msgDateRequired]),
     Samples.emptyDisk).
Proof.
  exact (proj2 (missing_fields_are_400 Samples.utc Samples.afternoon Samples.emptyDisk
                  JsUndefined JsUndefined eq_refl eq_refl) eq_refl).
Defined.

End ValidatorExtras.

(** ** The server from its start on *)

Module ServerExtras.
Import Js Validation Store Api Server.
Import StoreFacts ApiFacts.


Lemma serve_stored env disk req :
  (List.length (stored disk) <= 100)%nat ->
  (List.length (stored (snd (serve env disk req))) <= 100)%nat.
Proof.
  intro H. destruct req as [|s]; [exact H|]. cbn [serve].
  destruct (Z.eq_dec (status (fst (postCalculate env (subClock s) disk
                                     (subName s) (subDate s)))) 200) as [E|E].
  - destruct (postCalculate_success _ _ _ _ _ E) as (v & _ & _ & _ & _ & Hp).
    rewrite Hp. cbn [snd stored content].
    rewrite pushCapped_slice, sliceLast_length. lia.
  - now rewrite (postCalculate_failure _ _ _ _ _ E).
Qed.

Lemma getEntries_bounded disk :
  exists entries,
    getEntries disk = json (EntriesBody entries)
    /\ (List.length entries <= 10)%nat.
Proof.
  exists (rev (sliceLast 10 (readData disk))). split; [reflexivity|].
  rewrite length_rev, sliceLast_length. lia.
Qed.

Lemma postCalculate_not_entries env clock disk name dob entries :
  body (fst (postCalculate env clock disk name dob)) <> EntriesBody entries.
Proof.
  unfold postCalculate, calculateBody.
  destruct (validateInput _ _ _ _) as [v|m]; cbn [bind]; [|discriminate].
  destruct (negb (isValid v)); [discriminate|].
  destruct (writeData _ _); cbn [bind]; discriminate.
Qed.

(** X10: the cap is an invariant of the server. From a data file that
    holds at most 100 entries (an empty or a missing one for instance),
    whatever requests are served, in whatever order and with whatever
    outcome, the file holds at most 100 entries at the end, and no
    response ever lists more than 10. *)
Theorem cap_is_invariant env reqs : forall disk,
  (List.length (stored disk) <= 100)%nat ->
  (List.length (stored (snd (serveAll env disk reqs))) <= 100)%nat
  /\ shortLists (fst (serveAll env disk reqs)).
Proof.
  induction reqs as [|req reqs IH]; intros disk H.
  - split; [exact H|constructor].
  - cbn [serveAll].
    pose proof (serve_stored env disk req H) as Hs.
    destruct (serve env disk req) as [resp disk'] eqn:E. cbn [snd] in Hs.
    destruct (IH disk' Hs) as [Hcap Hshort].
    destruct (serveAll env disk' reqs) as [resps final]. cbn [fst snd] in *.
    split; [exact Hcap|]. constructor; [|exact Hshort].
    intros entries Hb. destruct req as [|s]; cbn [serve] in E.
    + injection E as <- _. destruct (getEntries_bounded disk) as (es & He & Hl).
      rewrite He in Hb. cbn in Hb. injection Hb as <-. exact Hl.
    + exfalso.
      apply (postCalculate_not_entries env (subClock s) disk (subName s) (subDate s)
               entries).
      rewrite E. exact Hb.
Qed.

(** X10, for 150 submissions with the list asked for after each one. *)
Lemma cap_is_invariant_witness :
  (List.length
     (stored (snd (serveAll Samples.utc Samples.emptyDisk
                     (List.concat (repeat [PostCalculate Samples.ada; GetEntries] 150)))))
   <= 100)%nat
  /\ shortLists (fst (serveAll Samples.utc Samples.emptyDisk
                        (List.concat (repeat [PostCalculate Samples.ada; GetEntries] 150)))).
Proof.
  apply (cap_is_invariant Samples.utc
           (List.concat (repeat [PostCalculate Samples.ada; GetEntries] 150))
           Samples.emptyDisk).
  cbn. lia.
Defined.

Lemma sliceLast_run (entries acc : list Entry) :
  sliceLast 10 (fold_left pushCapped acc entries) = sliceLast 10 (entries ++ acc).
Proof.
  destruct acc as [|e acc].
  - now rewrite app_nil_r.
  - rewrite pushCapped_run by discriminate. apply sliceLast_twice. lia.
Qed.

(** X11: after any run of submissions on a file that can be read and
    written, the list of recent entries is made of the last 10 among the
    entries that were there followed by the entries of the submissions
    that passed validation, the latest first; the submissions that were
    turned down leave no trace. With fewer than 100 entries in all, nothing
    has been dropped from the file. *)
Theorem recent_after_any_run env entries subs :
  let disk := postAll env (mkDisk (Document entries) true true) subs in
  getEntries disk
  = json (EntriesBody (rev (sliceLast 10 (entries ++ accepted env subs))))
  /\ ((List.length entries + List.length (accepted env subs) <= 100)%nat ->
      stored disk = (entries ++ accepted env subs)%list).
Proof.
  intro disk. subst disk. rewrite postAll_document. split.
  - unfold getEntries. cbn [readData readable content].
    now rewrite sliceLast_run.
  - intro H. cbn [stored content].
    destruct (accepted env subs) as [|e acc] eqn:E; [now rewrite app_nil_r|].
    rewrite pushCapped_run by discriminate.
    apply sliceLast_all. rewrite length_app. exact H.
Qed.

(** X11, for three submissions of which the second is turned down. *)
Lemma recent_after_any_run_witness :
  let subs := [Samples.ada;
               mkSubmission Samples.afternoon (JsString "1") (JsString "1990-03-21");
               Samples.ada] in
  stored (postAll Samples.utc (mkDisk (Document []) true true) subs)
  = ([] ++ accepted Samples.utc subs)%list.
Proof.
  intro subs.
  apply (proj2 (recent_after_any_run Samples.utc [] subs)).
  vm_compute. lia.
Defined.

Lemma numberToString_injective a b :
  numberToString a = numberToString b -> a = b.
Proof.
  unfold numberToString. intro H.
  assert (E : Some (Z.to_int a) = Some (Z.to_int b)).
  { rewrite <- !NilEmpty.isi. now rewrite H. }
  injection E as E. rewrite <- (DecimalZ.of_to a), <- (DecimalZ.of_to b).
  now rewrite E.
Qed.

(** X12: the id of an entry is the clock reading [Date.now()] in decimal,
    so that two entries have the same id exactly when they were created in
    the same millisecond, whatever was submitted. *)
Theorem ids_collide_iff_same_millisecond clock clock' v v' sign sign' :
  id (makeEntry clock v sign) = id (makeEntry clock' v' sign')
  <-> atId clock = atId clock'.
Proof.
  cbn [makeEntry id]. split.
  - apply numberToString_injective.
  - intros ->. reflexivity.
Qed.

End ServerExtras.

(** ** The client *)

Module ClientExtras.
Import Js Validation Store Api Client.
Import StoreFacts ApiFacts.

Lemma lookupInfo_labels sign :
  lookupInfo zodiacInfo sign <> None <-> In sign Zodiac.signLabels.
Proof.
  split.
  - cbn [lookupInfo zodiacInfo]. intro H.
    repeat match type of H with
           | (if String.eqb ?k sign then _ else _) <> None =>
               destruct (String.eqb_spec k sign) as [E|_];
                 [rewrite <- E; vm_compute; tauto|]
           end.
    exfalso. apply H. reflexivity.
  - intro H. vm_compute in H.
    repeat (destruct H as [<-|H]; [vm_compute; discriminate|]). destruct H.
Qed.

(** X13: the table of the client and the table of the server agree. Each
    of the twelve signs the classifier can return has its own symbol,
    description, element and colour on the page; any other text, the
    server's ['Unknown'] among them, gets the fallback star. So a sign
    computed from a date that [new Date] could read is never shown with
    the fallback. *)
Theorem every_sign_has_display :
  (forall sign, In sign Zodiac.signLabels ->
     exists info,
       lookupInfo zodiacInfo sign = Some info
       /\ display sign
          = mkDisplay (symbol info) (description info) (element info) (color info)
       /\ 9800 <= symbol info <= 9811)
  /\ (forall sign, ~ In sign Zodiac.signLabels -> display sign = fallbackDisplay)
  /\ display "Unknown" = fallbackDisplay
  /\ (forall env dateString t,
        parseDate env dateString = Some t ->
        display (Zodiac.calculateZodiacSign env dateString) <> fallbackDisplay).
Proof.
  assert (Hown : forall sign, In sign Zodiac.signLabels ->
            exists info,
              lookupInfo zodiacInfo sign = Some info
              /\ display sign
                 = mkDisplay (symbol info) (description info) (element info)
                             (color info)
              /\ 9800 <= symbol info <= 9811).
  { intros sign H. vm_compute in H.
    repeat (destruct H as [<-|H];
            [eexists; split; [reflexivity|]; split; [reflexivity|]; cbn; lia|]).
    destruct H. }
  split; [exact Hown|]. split; [|split; [reflexivity|]].
  - intros sign H. unfold display.
    destruct (lookupInfo zodiacInfo sign) eqn:E; [|reflexivity].
    exfalso. apply H, lookupInfo_labels. rewrite E. discriminate.
  - intros env s t Ht.
    destruct (Hown _ (ZodiacFacts.calculateZodiacSign_labelled env s t Ht))
      as (info & _ & Hd & Hs).
    rewrite Hd. intro E. injection E as E _ _ _. lia.
Qed.

(** X13, on the sign of a submission. *)
Lemma every_sign_has_display_witness :
  display (Zodiac.calculateZodiacSign Samples.utc "1990-03-21") <> fallbackDisplay.
Proof.
  apply (proj2 (proj2 (proj2 every_sign_has_display))
           Samples.utc "1990-03-21" 637977600000).
  reflexivity.
Defined.

Lemma orElse_nonempty s fallback : fallback <> "" -> orElse s fallback <> "".
Proof.
  intro H. unfold orElse. destruct (String.eqb_spec s ""); assumption.
Qed.

(** X14: however the request ends, [handleSubmit] leaves the button
    enabled again. After a response that is ok and says [success], the
    form is emptied, the error is cleared, the success banner is shown and
    one more timer is running; the list of recent entries is the one the
    refresh brought, or the one that was there when the refresh failed.
    After anything else the user is shown an error text that is not empty
    and keeps what was typed, the last result and the list. *)
Theorem handleSubmit_outcome (s : AppState) (post get : Outcome) :
  let s' := handleSubmit s post get in
  loading s' = false
  /\ if succeeded post then
       formData s' = mkForm "" "" /\ error s' = "" /\ showSuccess s' = true
       /\ timers s' = S (timers s)
       /\ recentEntries s' = recentEntries (fetchRecentEntries s get)
     else
       error s' <> "" /\ formData s' = formData s /\ result s' = result s
       /\ recentEntries s' = recentEntries s /\ showSuccess s' = showSuccess s
       /\ timers s' = timers s.
Proof.
  unfold handleSubmit, succeeded. cbv zeta. split; [reflexivity|].
  destruct post as [|st|r].
  - cbn. repeat split; discriminate.
  - cbn. repeat split; discriminate.
  - destruct (okStatus (status r) && successOf (body r)).
    + cbn [formData error showSuccess timers recentEntries].
      unfold fetchRecentEntries.
      destruct get as [|st|g]; cbn; try (repeat split; reflexivity).
      destruct (okStatus (status g)); cbn; repeat split; reflexivity.
    + cbn. repeat split; try reflexivity.
      apply orElse_nonempty. discriminate.
Qed.

(** What the server answers to the form: the two fields are strings, so
    that [validateInput] returns. *)
Lemma posted_validates env now s :
  exists v, validateInput env now (postedName s) (postedDate s) = Normal v.
Proof.
  unfold validateInput, sanitize, postedName, postedDate.
  cbn [trimMethod]. destruct (truthy (JsString (formName (formData s))));
    destruct (truthy (JsString (formDate (formData s)))); cbn [bind];
    eexists; reflexivity.
Qed.

(** X17: what the form sends is two strings, so that on a submission of
    the form [validateInput] always returns, and the server answers 200,
    400 or 500; it answers 500 only when the input is valid and the file
    cannot be written. *)
Theorem form_is_never_wrong_type env clock disk s :
  let resp := fst (postCalculate env clock disk (postedName s) (postedDate s)) in
  exists v,
    validateInput env (atValidation clock) (postedName s) (postedDate s) = Normal v
    /\ status resp = (if isValid v then if writable disk then 200 else 500 else 400)
    /\ (status resp = 500 -> isValid v = true /\ writable disk = false).
Proof.
  destruct (posted_validates env (atValidation clock) s) as [v Hv].
  exists v. split; [exact Hv|].
  assert (Hs : status (fst (postCalculate env clock disk (postedName s) (postedDate s)))
               = if isValid v then if writable disk then 200 else 500 else 400).
  { unfold postCalculate, calculateBody. rewrite Hv. cbn [bind].
    destruct (isValid v); cbn [negb]; [|reflexivity].
    unfold writeData. destruct (writable disk); reflexivity. }
  split; [exact Hs|]. rewrite Hs.
  destruct (isValid v), (writable disk); intro H; try discriminate H; auto.
Qed.



(** X16: when the form is sent to a server whose file can be read and
    written and the validator accepts the input, the page shows the
    sanitized name, the date and the computed sign, the form is emptied,
    and the list of recent entries starts with the entry just stored, whose
    name, date and sign are those of the result shown. *)
Theorem submit_stored env clock disk s v :
  validateInput env (atValidation clock) (postedName s) (postedDate s) = Normal v ->
  isValid v = true -> readable disk = true -> writable disk = true ->
  let s' := fst (submit env clock disk s) in
  let sign := Zodiac.calculateZodiacSign env (sanitizedDate v) in
  result s' = Some (mkResult (sanitizedName v) (sanitizedDate v) sign)
  /\ formData s' = mkForm "" "" /\ error s' = "" /\ loading s' = false
  /\ showSuccess s' = true
  /\ exists older,
       recentEntries s' = makeEntry clock v sign :: older
       /\ (List.length older <= 9)%nat
       /\ Forall (fun e => In e (readData disk)) older.
Proof.
  intros Hv Hok Hr Hw. unfold submit.
  rewrite (postCalculate_writable _ _ _ _ _ Hw), Hv, Hok. cbv zeta.
  unfold handleSubmit, fetchRecentEntries. cbn [fst snd status body json okStatus].
  cbn [successOf resultOf andb]. 
  change ((200 <=? 200) && (200 <=? 299)) with true. cbn [andb].
  unfold getEntries.
  change (okStatus (status (json (EntriesBody
            (rev (sliceLast 10 (readData
               (mkDisk (Document (pushCapped (readData disk)
                  (makeEntry clock v
                     (Zodiac.calculateZodiacSign env (sanitizedDate v)))))
                  (readable disk) true)))))))) with true.
  cbn [result formData error loading showSuccess recentEntries body entriesOf json].
  repeat (split; [reflexivity|]).
  exists (rev (sliceLast 9 (readData disk))).
  unfold readData at 1. cbn [readable content]. rewrite Hr.
  rewrite pushCapped_slice, sliceLast_twice by lia.
  rewrite (sliceLast_snoc 9), rev_app_distr. split; [reflexivity|].
  split; [rewrite length_rev, sliceLast_length; lia|].
  apply Forall_forall. intros e Hin. apply in_rev in Hin.
  now apply sliceLast_In in Hin.
Qed.

(** X16, on the form filled in for Ada Lovelace. *)
Lemma submit_stored_witness :
  let s := handleInputChange
             (handleInputChange initialState NameField "Ada Lovelace")
             DateField "1990-03-21" in
  result (fst (submit Samples.utc Samples.afternoon Samples.emptyDisk s))
  = Some (mkResult "Ada Lovelace" "1990-03-21" "Aries").
Proof.
  intro s.
  exact (proj1 (submit_stored Samples.utc Samples.afternoon Samples.emptyDisk s
                  (mkValidation true [] "Ada Lovelace" "1990-03-21")
                  eq_refl eq_refl eq_refl eq_refl)).
Defined.

End ClientExtras.
